(** * VersionManagement: the version panel of a project page

    A shallow embedding of
    [src/components/project-details/VersionManagement.tsx].

    The component keeps three pieces of React state ([dialogOpen],
    [editingVersion], [formData]) and talks to four collaborators: the
    platform's [URL] constructor, the authentication client
    ([supabase.auth.getUser]), the persistence adapter ([db.query]) and the
    caller's [onVersionsUpdate] callback, plus the [toast] and [console]
    sinks.  Every call to a collaborator is recorded, in program order, in a
    trace of [Event]s; what a collaborator answers is read from a [World].
    Handlers are written in a small state/exception/trace monad [M]. *)

From Stdlib Require Import ZArith Lia.
From stdpp Require Import gmap strings list fin_maps.

Local Open Scope string_scope.
Local Open Scope list_scope.
Local Open Scope Z_scope.

(** ** JavaScript values that occur in the component *)

(** The numbers the component computes with.  A JavaScript number is an
    IEEE-754 double; a [version_number] is an integer-valued one, given by
    its value in [Z].  [Math.max] of doubles is exact; [+ 1] is the exact sum
    rounded to the nearest double, ties to even ([round_to_double]).
    [Math.max()] of no arguments is [-Infinity]. *)
Inductive JsNum : Type :=
| NegInfinity
| Num (z : Z).

Inductive JsVal : Type :=
| JNull
| JBool (b : bool)
| JNumber (n : JsNum)
| JString (s : string).

(** Truthiness of a string: only the empty string is falsy. *)
Definition truthy (s : string) : bool :=
  match s with
  | EmptyString => false
  | String _ _ => true
  end.

(** [s || null] *)
Definition or_null (s : string) : JsVal :=
  if truthy s then JString s else JNull.

(** [o || ""] for a nullable string column. *)
Definition or_empty (o : option string) : string :=
  match o with
  | Some s => if truthy s then s else ""
  | None => ""
  end.

(** [Math.max(a, b)] and [Math.max(...xs)]. *)
Definition js_max (a b : JsNum) : JsNum :=
  match a, b with
  | NegInfinity, _ => b
  | _, NegInfinity => a
  | Num x, Num y => Num (Z.max x y)
  end.

Definition Math_max (xs : list JsNum) : JsNum :=
  fold_left js_max xs NegInfinity.

(** 2^53: up to this magnitude every integer is a double. *)
Definition two53 : Z := 9007199254740992.

(** The double nearest to an integer [z], ties to even.  An integer of
    magnitude below 2^53 is a double.  A larger one has more than 53 bits:
    with [e] the number of bits beyond 53, the doubles around it are the
    multiples of [2^e], and [z] goes to the nearer one, or on a tie to the
    one with an even 53-bit significand.  (The sum of a finite double and 1
    is below the overflow threshold, so no infinity arises here.) *)
Definition round_to_double (z : Z) : Z :=
  let a := Z.abs z in
  if a <? two53 then z
  else
    let e := Z.log2 a - 52 in
    let ulp := 2 ^ e in
    let q := a / ulp in
    let r := a mod ulp in
    let half := ulp / 2 in
    let q' := if r <? half then q
              else if half <? r then q + 1
              else if Z.even q then q else q + 1 in
    Z.sgn z * (q' * ulp).

(** [n + 1] *)
Definition js_succ (n : JsNum) : JsNum :=
  match n with
  | NegInfinity => NegInfinity
  | Num z => Num (round_to_double (z + 1))
  end.

(** [Number.isSafeInteger]: an integer of magnitude at most 2^53 - 1. *)
Definition safe_integer (z : Z) : Prop := - two53 < z < two53.

(** ** Data model *)

Module Version.
(** The fields of a version row that the component reads. *)
Record t : Type := mk {
  id : string;
  version_number : Z;
  preview_url : option string;
  final_url : option string;
  is_approved : bool;
  created_at : string
}.
End Version.

Module FormData.
Record t : Type := mk {
  preview_url : string;
  final_url : string
}.
End FormData.

Record User : Type := { user_id : string }.

Record Props : Type := {
  projectId : string;
  versions : list Version.t;
  userRole : option string
}.

Record State : Type := {
  dialogOpen : bool;
  editingVersion : option Version.t;
  formData : FormData.t
}.

(** [useState] initial values. *)
Definition initialState : State :=
  {| dialogOpen := false;
     editingVersion := None;
     formData := FormData.mk "" "" |}.

(** ** Calls to the persistence adapter *)

Inductive Operation : Type := Insert | Update | Delete.

Record Query : Type := {
  collection : string;
  operation : Operation;
  where_id : option string;            (* [where: { id }] *)
  data : option (gmap string JsVal)    (* [data: { ... }] *)
}.

(** ** Events and the world *)

Inductive Event : Type :=
| EvPreventDefault
| EvNewURL (url : string)
| EvGetUser
| EvDbQuery (q : Query)
| EvToastError (msg : string)
| EvToastSuccess (msg : string)
| EvConsoleError (msg : string)
| EvOnVersionsUpdate.

Inductive Outcome (A : Type) : Type :=
| Resolved (a : A)
| Rejected (err : string).
Arguments Resolved {A} a.
Arguments Rejected {A} err.

(** What the collaborators answer during one run of a handler. *)
Record World : Type := {
  url_parses : string -> bool;           (* [new URL(s)] returns, not throws *)
  getUser : Outcome (option User);       (* [supabase.auth.getUser()] *)
  db_query : Query -> Outcome unit;      (* [db.query(q)] *)
  now_iso : string;                      (* [new Date().toISOString()] *)
  onVersionsUpdate : Outcome unit        (* the caller's callback *)
}.

(** ** The handler monad *)

Inductive Result (A : Type) : Type :=
| Ok (a : A)
| Thrown (err : string).
Arguments Ok {A} a.
Arguments Thrown {A} err.

Definition M (A : Type) : Type := State -> Result A * State * list Event.

Definition ret {A} (a : A) : M A := fun s => (Ok a, s, []).

Definition throw {A} (err : string) : M A := fun s => (Thrown err, s, []).

Definition bind {A B} (m : M A) (f : A -> M B) : M B :=
  fun s =>
    match m s with
    | (Ok a, s1, t1) =>
        match f a s1 with
        | (r, s2, t2) => (r, s2, t1 ++ t2)
        end
    | (Thrown e, s1, t1) => (Thrown e, s1, t1)
    end.

(** [try { m } catch (e) { h e }] *)
Definition try_catch {A} (m : M A) (h : string -> M A) : M A :=
  fun s =>
    match m s with
    | (Ok a, s1, t1) => (Ok a, s1, t1)
    | (Thrown e, s1, t1) =>
        match h e s1 with
        | (r, s2, t2) => (r, s2, t1 ++ t2)
        end
    end.

Definition emit (e : Event) : M unit := fun s => (Ok tt, s, [e]).

(** [await p] for a promise whose outcome the world fixes. *)
Definition await {A} (o : Outcome A) : M A :=
  match o with
  | Resolved a => ret a
  | Rejected e => throw e
  end.

Declare Scope handler_scope.
Delimit Scope handler_scope with handler.
Notation "'do' x <- m ; k" := (bind m (fun x => k))
  (at level 10, x name, m at level 100, k at level 200) : handler_scope.
Local Open Scope handler_scope.

(** State setters. *)
Definition setDialogOpen (b : bool) : M unit :=
  fun s => (Ok tt, {| dialogOpen := b;
                      editingVersion := editingVersion s;
                      formData := formData s |}, []).

Definition setEditingVersion (v : option Version.t) : M unit :=
  fun s => (Ok tt, {| dialogOpen := dialogOpen s;
                      editingVersion := v;
                      formData := formData s |}, []).

Definition setFormData (f : FormData.t) : M unit :=
  fun s => (Ok tt, {| dialogOpen := dialogOpen s;
                      editingVersion := editingVersion s;
                      formData := f |}, []).

(** Collaborators. *)
Definition toast_error (msg : string) : M unit := emit (EvToastError msg).
Definition toast_success (msg : string) : M unit := emit (EvToastSuccess msg).
Definition console_error (msg : string) : M unit := emit (EvConsoleError msg).

Definition new_URL (w : World) (url : string) : M unit :=
  do _ <- emit (EvNewURL url);
  if url_parses w url then ret tt else throw "TypeError: Invalid URL".

Definition auth_getUser (w : World) : M (option User) :=
  do _ <- emit EvGetUser; await (getUser w).

Definition db_query_call (w : World) (q : Query) : M unit :=
  do _ <- emit (EvDbQuery q); await (db_query w q).

Definition call_onVersionsUpdate (w : World) : M unit :=
  do _ <- emit EvOnVersionsUpdate; await (onVersionsUpdate w).

(** ** The component's functions *)

(** [isValidUrl]: [try { new URL(url); return true } catch { return false }] *)
Definition isValidUrl (w : World) (url : string) : M bool :=
  try_catch (do _ <- new_URL w url; ret true) (fun _ => ret false).

(** [field && !isValidUrl(field)], evaluated left to right. *)
Definition present_and_invalid (w : World) (field : string) : M bool :=
  if truthy field
  then do ok <- isValidUrl w field; ret (negb ok)
  else ret false.

(** [versions.length > 0 ? Math.max(...versions.map(v => v.version_number)) + 1 : 1] *)
Definition nextVersionNumber (vs : list Version.t) : JsNum :=
  if (0 <? Z.of_nat (length vs))
  then js_succ (Math_max (map (fun v => Num (Version.version_number v)) vs))
  else Num 1.

(** The [data] object of the update issued by [handleSubmit]. *)
Definition update_data (w : World) (f : FormData.t) : gmap string JsVal :=
  list_to_map
    [ ("preview_url", or_null (FormData.preview_url f));
      ("final_url", or_null (FormData.final_url f));
      ("updated_at", JString (now_iso w)) ].

(** The [data] object of the insert issued by [handleSubmit]. *)
Definition insert_data (p : Props) (f : FormData.t) (user : User)
  : gmap string JsVal :=
  list_to_map
    [ ("project_id", JString (projectId p));
      ("version_number", JNumber (nextVersionNumber (versions p)));
      ("preview_url", or_null (FormData.preview_url f));
      ("final_url", or_null (FormData.final_url f));
      ("uploaded_by", JString (user_id user));
      ("is_approved", JBool false) ].

Definition update_query (w : World) (v : Version.t) (f : FormData.t) : Query :=
  {| collection := "video_versions";
     operation := Update;
     where_id := Some (Version.id v);
     data := Some (update_data w f) |}.

Definition insert_query (p : Props) (f : FormData.t) (user : User) : Query :=
  {| collection := "video_versions";
     operation := Insert;
     where_id := None;
     data := Some (insert_data p f user) |}.

(** [handleSubmit].  The handler reads [formData], [editingVersion] and
    [versions] from the render [cur] it was created in, and writes through
    the state setters. *)
Definition handleSubmit (w : World) (p : Props) (cur : State) : M unit :=
  do _ <- emit EvPreventDefault;
  do bad_preview <- present_and_invalid w (FormData.preview_url (formData cur));
  if bad_preview then toast_error "Please enter a valid preview URL"
  else
  do bad_final <- present_and_invalid w (FormData.final_url (formData cur));
  if bad_final then toast_error "Please enter a valid final URL"
  else
  try_catch
    (do user <- auth_getUser w;
     match user with
     | None => ret tt
     | Some user =>
         do _ <-
           match editingVersion cur with
           | Some v =>
               do _ <- db_query_call w (update_query w v (formData cur));
               toast_success "Version updated successfully"
           | None =>
               do _ <- db_query_call w (insert_query p (formData cur) user);
               toast_success "New version created successfully"
           end;
         do _ <- setDialogOpen false;
         do _ <- setEditingVersion None;
         do _ <- setFormData (FormData.mk "" "");
         call_onVersionsUpdate w
     end)
    (fun error =>
       do _ <- console_error "Error saving version:";
       toast_error "Failed to save version").

(** [handleEdit] *)
Definition handleEdit (version : Version.t) : M unit :=
  do _ <- setEditingVersion (Some version);
  do _ <- setFormData
            (FormData.mk (or_empty (Version.preview_url version))
                         (or_empty (Version.final_url version)));
  setDialogOpen true.

Definition delete_query (versionId : string) : Query :=
  {| collection := "video_versions";
     operation := Delete;
     where_id := Some versionId;
     data := None |}.

(** [handleDelete] *)
Definition handleDelete (w : World) (versionId : string) : M unit :=
  try_catch
    (do _ <- db_query_call w (delete_query versionId);
     do _ <- toast_success "Version deleted successfully";
     call_onVersionsUpdate w)
    (fun error =>
       do _ <- console_error "Error deleting version:";
       toast_error "Failed to delete version").

Definition approve_data : gmap string JsVal :=
  list_to_map [ ("is_approved", JBool true) ].

Definition approve_query (versionId : string) : Query :=
  {| collection := "video_versions";
     operation := Update;
     where_id := Some versionId;
     data := Some approve_data |}.

(** [handleApprove] *)
Definition handleApprove (w : World) (versionId : string) : M unit :=
  try_catch
    (do _ <- db_query_call w (approve_query versionId);
     do _ <- toast_success "Version approved successfully";
     call_onVersionsUpdate w)
    (fun error =>
       do _ <- console_error "Error approving version:";
       toast_error "Failed to approve version").

(** [handleDialogClose] *)
Definition handleDialogClose (open : bool) : M unit :=
  do _ <- setDialogOpen open;
  if negb open
  then do _ <- setEditingVersion None; setFormData (FormData.mk "" "")
  else ret tt.

(** ** The actions cell of a table row *)

(** What a click on a rendered control runs. *)
Inductive RowAction : Type :=
| ApproveButton (versionId : string)     (* [handleApprove(version.id)] *)
| EditButton (version : Version.t)       (* [handleEdit(version)] *)
| DeleteButton (versionId : string).     (* [handleDelete(version.id)] *)

(** [userRole === 'client'] *)
Definition role_is_client (role : option string) : bool :=
  match role with
  | Some r => String.eqb r "client"
  | None => false
  end.

(** [{!version.is_approved && userRole === 'client' && <Button .../>}]
    followed by the edit and delete controls. *)
Definition rowActions (role : option string) (version : Version.t)
  : list RowAction :=
  (if negb (Version.is_approved version) && role_is_client role
   then [ApproveButton (Version.id version)]
   else [])
  ++ [EditButton version; DeleteButton (Version.id version)].

(** The table body: one actions cell per version, in list order; nothing
    when [versions.length === 0]. *)
Definition renderActions (p : Props) : list (Version.t * list RowAction) :=
  map (fun version => (version, rowActions (userRole p) version)) (versions p).

(** ** Observations on a run *)

Definition run {A} (m : M A) (s : State) : Result A * State * list Event := m s.

Definition final_state {A} (r : Result A * State * list Event) : State :=
  snd (fst r).

Definition trace {A} (r : Result A * State * list Event) : list Event :=
  snd r.

(** The queries sent to the persistence adapter, in order. *)
Fixpoint db_calls (t : list Event) : list Query :=
  match t with
  | [] => []
  | EvDbQuery q :: t' => q :: db_calls t'
  | _ :: t' => db_calls t'
  end.

(** The toasts shown, in order. *)
Inductive Notification : Type :=
| NError (msg : string)
| NSuccess (msg : string).

Fixpoint notifications (t : list Event) : list Notification :=
  match t with
  | [] => []
  | EvToastError m :: t' => NError m :: notifications t'
  | EvToastSuccess m :: t' => NSuccess m :: notifications t'
  | _ :: t' => notifications t'
  end.

(** The strings handed to the [URL] constructor, in order. *)
Fixpoint url_checks (t : list Event) : list string :=
  match t with
  | [] => []
  | EvNewURL u :: t' => u :: url_checks t'
  | _ :: t' => url_checks t'
  end.

(** How often the caller's refresh callback was invoked. *)
Fixpoint refresh_calls (t : list Event) : nat :=
  match t with
  | [] => O
  | EvOnVersionsUpdate :: t' => S (refresh_calls t')
  | _ :: t' => refresh_calls t'
  end.

(** A draft field passes the gate when it is empty or parses. *)
Definition field_ok (w : World) (s : string) : bool :=
  negb (truthy s) || url_parses w s.

Definition submit (w : World) (p : Props) (cur : State)
  : Result unit * State * list Event :=
  run (handleSubmit w p cur) cur.

(** ** Outcomes of [handleSubmit], by case *)

(** The [URL] constructor calls one draft field causes. *)
Definition check_events (s : string) : list Event :=
  if truthy s then [EvNewURL s] else [].

(** The query [handleSubmit] sends once the gate is passed and a user [u]
    is known: an update of the edited row, or an insert. *)
Definition submit_query (w : World) (p : Props) (cur : State) (u : User)
  : Query :=
  match editingVersion cur with
  | Some v => update_query w v (formData cur)
  | None => insert_query p (formData cur) u
  end.

Definition success_message (cur : State) : string :=
  match editingVersion cur with
  | Some _ => "Version updated successfully"
  | None => "New version created successfully"
  end.

(** The state after [setDialogOpen(false); setEditingVersion(null);
    setFormData({ preview_url: "", final_url: "" })]. *)
Definition closedState : State :=
  {| dialogOpen := false;
     editingVersion := None;
     formData := FormData.mk "" "" |}.

Definition failure_events : list Event :=
  [EvConsoleError "Error saving version:"; EvToastError "Failed to save version"].

(** What follows the gate, by what the collaborators answer. *)
Definition after_gate (w : World) (p : Props) (cur : State)
  : State * list Event :=
  match getUser w with
  | Rejected _ => (cur, EvGetUser :: failure_events)
  | Resolved None => (cur, [EvGetUser])
  | Resolved (Some u) =>
      let q := submit_query w p cur u in
      match db_query w q with
      | Rejected _ => (cur, [EvGetUser; EvDbQuery q] ++ failure_events)
      | Resolved _ =>
          (closedState,
           [EvGetUser; EvDbQuery q; EvToastSuccess (success_message cur);
            EvOnVersionsUpdate]
           ++ match onVersionsUpdate w with
              | Resolved _ => []
              | Rejected _ => failure_events
              end)
      end
  end.

(** ** Version numbers *)

Definition version_numbers (vs : list Version.t) : list Z :=
  map Version.version_number vs.

(** [m] is the greatest element of [l]. *)
Definition is_max_of (m : Z) (l : list Z) : Prop :=
  In m l /\ Forall (fun x => x <= m) l.

(** ** The two draft fields *)

Inductive Field : Type := PreviewField | FinalField.

Definition field_value (fld : Field) (f : FormData.t) : string :=
  match fld with
  | PreviewField => FormData.preview_url f
  | FinalField => FormData.final_url f
  end.

Definition other_field (fld : Field) : Field :=
  match fld with
  | PreviewField => FinalField
  | FinalField => PreviewField
  end.

(** The key a field is written under in a [data] object. *)
Definition field_key (fld : Field) : string :=
  match fld with
  | PreviewField => "preview_url"
  | FinalField => "final_url"
  end.

(** The toast of the validation gate for a field. *)
Definition field_error (fld : Field) : Notification :=
  match fld with
  | PreviewField => NError "Please enter a valid preview URL"
  | FinalField => NError "Please enter a valid final URL"
  end.

(** A field that is non-empty and does not parse. *)
Definition offending (w : World) (fld : Field) (f : FormData.t) : Prop :=
  field_value fld f <> "" /\ url_parses w (field_value fld f) = false.

Definition is_validation_error (n : Notification) : bool :=
  match n with
  | NError m =>
      String.eqb m "Please enter a valid preview URL"
      || String.eqb m "Please enter a valid final URL"
  | NSuccess _ => false
  end.

Definition validation_errors (t : list Event) : list Notification :=
  List.filter is_validation_error (notifications t).

(** The value a query writes under a key, if any. *)
Definition written (q : Query) (key : string) : option JsVal :=
  match data q with
  | Some d => d !! key
  | None => None
  end.

(** The keys a query writes. *)
Definition written_keys (q : Query) : gset string :=
  match data q with
  | Some d => dom d
  | None => ∅
  end.

(** ** Sample inputs *)

Module Sample.
(** A world in which exactly the strings starting with [http] parse, a
    user is signed in, and the store and the callback succeed. *)
Definition world : World :=
  {| url_parses := fun s => String.prefix "http" s;
     getUser := Resolved (Some {| user_id := "user-1" |});
     db_query := fun _ => Resolved tt;
     now_iso := "2024-05-01T10:00:00.000Z";
     onVersionsUpdate := Resolved tt |}.

Definition signed_out : World :=
  {| url_parses := url_parses world;
     getUser := Resolved None;
     db_query := db_query world;
     now_iso := now_iso world;
     onVersionsUpdate := onVersionsUpdate world |}.

Definition store_down : World :=
  {| url_parses := url_parses world;
     getUser := getUser world;
     db_query := fun _ => Rejected "network error";
     now_iso := now_iso world;
     onVersionsUpdate := onVersionsUpdate world |}.

Definition version (id : string) (n : Z) (approved : bool) : Version.t :=
  {| Version.id := id;
     Version.version_number := n;
     Version.preview_url := Some "https://example.com/preview";
     Version.final_url := None;
     Version.is_approved := approved;
     Version.created_at := "2024-04-01T09:00:00.000Z" |}.

Definition props : Props :=
  {| projectId := "project-1";
     versions := [version "a" 1 true; version "b" 2 false; version "c" 4 false];
     userRole := Some "client" |}.

Definition draft (preview final : string) (editing : option Version.t)
  : State :=
  {| dialogOpen := true;
     editingVersion := editing;
     formData := FormData.mk preview final |}.
End Sample.

(** ** The rest of the view *)

(** A link cell: [url ? <a href={url}>label</a> : "Not uploaded"]. *)
Inductive LinkCell : Type :=
| LinkTo (href : string) (label : string)
| NotUploaded.

Definition linkCell (label : string) (url : option string) : LinkCell :=
  match url with
  | Some s => if truthy s then LinkTo s label else NotUploaded
  | None => NotUploaded
  end.

(** [version.is_approved ? <Badge>Approved</Badge> : <Badge>Pending</Badge>] *)
Inductive StatusBadge : Type := BadgeApproved | BadgePending.

Definition statusBadge (version : Version.t) : StatusBadge :=
  if Version.is_approved version then BadgeApproved else BadgePending.

(** One [TableRow].  The date cell is left out: it is
    [toLocaleDateString] of [created_at], which depends on the locale. *)
Record TableRow : Type := {
  row_key : string;
  row_version_number : Z;
  preview_cell : LinkCell;
  final_cell : LinkCell;
  status_cell : StatusBadge;
  actions_cell : list RowAction
}.

Definition renderRow (role : option string) (version : Version.t) : TableRow :=
  {| row_key := Version.id version;
     row_version_number := Version.version_number version;
     preview_cell := linkCell "View" (Version.preview_url version);
     final_cell := linkCell "Download" (Version.final_url version);
     status_cell := statusBadge version;
     actions_cell := rowActions role version |}.

(** [versions.length === 0 ? <empty state> : <Table>...] *)
Inductive CardBody : Type :=
| NoVersionsYet
| VersionsTable (rows : list TableRow).

Definition renderBody (p : Props) : CardBody :=
  if (Z.of_nat (length (versions p)) =? 0)
  then NoVersionsYet
  else VersionsTable (map (renderRow (userRole p)) (versions p)).

(** The texts of the dialog that depend on [editingVersion]. *)
Definition dialogTitle (st : State) : string :=
  match editingVersion st with
  | Some _ => "Edit Version"
  | None => "Add New Version"
  end.

Definition submitLabel (st : State) : string :=
  match editingVersion st with
  | Some _ => "Update Version"
  | None => "Add Version"
  end.

(** The [onChange] handlers of the two inputs:
    [setFormData({ ...formData, preview_url: e.target.value })]. *)
Definition handlePreviewChange (cur : State) (value : string) : M unit :=
  setFormData (FormData.mk value (FormData.final_url (formData cur))).

Definition handleFinalChange (cur : State) (value : string) : M unit :=
  setFormData (FormData.mk (FormData.preview_url (formData cur)) value).

(** ** Sessions *)

(** What the user can do to the panel, with the world each handler run
    meets. *)
Inductive Action : Type :=
| OpenChange (open : bool)                        (* [onOpenChange] of the dialog *)
| ClickEdit (version : Version.t)
| ChangePreview (value : string)
| ChangeFinal (value : string)
| SubmitForm (w : World)
| ClickApprove (w : World) (versionId : string)
| ConfirmDelete (w : World) (versionId : string).

(** The handler an action runs, created in the render with state [cur]. *)
Definition handler (p : Props) (cur : State) (a : Action) : M unit :=
  match a with
  | OpenChange open => handleDialogClose open
  | ClickEdit version => handleEdit version
  | ChangePreview value => handlePreviewChange cur value
  | ChangeFinal value => handleFinalChange cur value
  | SubmitForm w => handleSubmit w p cur
  | ClickApprove w versionId => handleApprove w versionId
  | ConfirmDelete w versionId => handleDelete w versionId
  end.

(** One action, with the props of the render it happens in. *)
Definition perform (cur : State) (step : Props * Action) : State :=
  final_state (run (handler (fst step) cur (snd step)) cur).

(** The state after a sequence of actions on a freshly mounted panel. *)
Definition session (steps : list (Props * Action)) : State :=
  fold_left perform steps initialState.

(** The inputs are part of the dialog's content: this holds when every
    change of an input happens in a state where the dialog is open. *)
Fixpoint typing_only_while_open (cur : State) (steps : list (Props * Action))
  : bool :=
  match steps with
  | [] => true
  | step :: rest =>
      match snd step with
      | ChangePreview _ | ChangeFinal _ => dialogOpen cur
      | _ => true
      end
      && typing_only_while_open (perform cur step) rest
  end.

(** ** Conditions of a submission *)

(** Both draft fields pass the gate. *)
Definition gate_open (w : World) (cur : State) : bool :=
  field_ok w (FormData.preview_url (formData cur))
  && field_ok w (FormData.final_url (formData cur)).

(** The gate is passed, a user is signed in and the store accepts the
    query. *)
Definition write_accepted (w : World) (p : Props) (cur : State) : bool :=
  gate_open w cur
  && match getUser w with
     | Resolved (Some u) =>
         match db_query w (submit_query w p cur u) with
         | Resolved _ => true
         | Rejected _ => false
         end
     | _ => false
     end.

(** The toasts of [handleDelete] and [handleApprove], by what the store and
    the callback answer. *)
Definition mutation_toasts (w : World) (q : Query) (done failed : string)
  : list Notification :=
  match db_query w q with
  | Resolved _ =>
      NSuccess done
      :: match onVersionsUpdate w with
         | Resolved _ => []
         | Rejected _ => [NError failed]
         end
  | Rejected _ => [NError failed]
  end.

Module Scenario.
(** A world whose authentication client fails. *)
Definition auth_down : World :=
  {| url_parses := url_parses Sample.world;
     getUser := Rejected "AuthRetryableFetchError";
     db_query := db_query Sample.world;
     now_iso := now_iso Sample.world;
     onVersionsUpdate := onVersionsUpdate Sample.world |}.

(** A row whose URLs both parse in [Sample.world]. *)
Definition stored : Version.t :=
  {| Version.id := "c";
     Version.version_number := 4;
     Version.preview_url := Some "https://example.com/preview";
     Version.final_url := None;
     Version.is_approved := false;
     Version.created_at := "2024-04-03T09:00:00.000Z" |}.

(** Open the dialog, type a preview URL, fail to save, dismiss. *)
Definition steps : list (Props * Action) :=
  [ (Sample.props, OpenChange true);
    (Sample.props, ChangePreview "https://example.com/a");
    (Sample.props, SubmitForm Sample.store_down);
    (Sample.props, OpenChange false) ].
End Scenario.

(** * Properties *)

(** ** Symbolic execution of [handleSubmit] *)

Lemma truthy_true_iff (s : string) : truthy s = true <-> s <> "".
Proof. destruct s; simpl; split; intros; congruence. Qed.

Lemma truthy_false_iff (s : string) : truthy s = false <-> s = "".
Proof. destruct s; simpl; split; intros; congruence. Qed.

Lemma gate_pass (w : World) (s : string) (cur : State) :
  field_ok w s = true ->
  present_and_invalid w s cur = (Ok false, cur, check_events s).
Proof.
  unfold field_ok, present_and_invalid, check_events, isValidUrl, new_URL.
  destruct (truthy s) eqn:Ht; simpl; intros H; [| reflexivity].
  unfold bind, try_catch, emit; simpl. rewrite H. reflexivity.
Qed.

Lemma gate_fail (w : World) (s : string) (cur : State) :
  truthy s = true -> url_parses w s = false ->
  present_and_invalid w s cur = (Ok true, cur, [EvNewURL s]).
Proof.
  unfold present_and_invalid, isValidUrl, new_URL. intros Ht Hp.
  rewrite Ht. unfold bind, try_catch, emit; simpl. rewrite Hp. reflexivity.
Qed.

Ltac step_handler :=
  unfold submit, run, handleSubmit, auth_getUser, db_query_call,
    call_onVersionsUpdate, toast_error, toast_success, console_error,
    setDialogOpen, setEditingVersion, setFormData, await, ret, throw.

Lemma submit_bad_preview (w : World) (p : Props) (cur : State) :
  truthy (FormData.preview_url (formData cur)) = true ->
  url_parses w (FormData.preview_url (formData cur)) = false ->
  submit w p cur =
    (Ok tt, cur,
     [EvPreventDefault; EvNewURL (FormData.preview_url (formData cur));
      EvToastError "Please enter a valid preview URL"]).
Proof.
  intros Ht Hp. step_handler. unfold bind at 1. unfold emit at 1.
  unfold bind at 1. rewrite (gate_fail w _ cur Ht Hp).
  unfold emit. reflexivity.
Qed.

Lemma submit_bad_final (w : World) (p : Props) (cur : State) :
  field_ok w (FormData.preview_url (formData cur)) = true ->
  truthy (FormData.final_url (formData cur)) = true ->
  url_parses w (FormData.final_url (formData cur)) = false ->
  submit w p cur =
    (Ok tt, cur,
     EvPreventDefault :: check_events (FormData.preview_url (formData cur))
     ++ [EvNewURL (FormData.final_url (formData cur));
         EvToastError "Please enter a valid final URL"]).
Proof.
  intros Hok Ht Hp. step_handler. unfold bind at 1. unfold emit at 1.
  unfold bind at 1. rewrite (gate_pass w _ cur Hok).
  unfold bind at 1. rewrite (gate_fail w _ cur Ht Hp).
  unfold emit. reflexivity.
Qed.

Lemma submit_gate_passed (w : World) (p : Props) (cur : State) :
  field_ok w (FormData.preview_url (formData cur)) = true ->
  field_ok w (FormData.final_url (formData cur)) = true ->
  submit w p cur =
    (Ok tt, fst (after_gate w p cur),
     EvPreventDefault :: check_events (FormData.preview_url (formData cur))
     ++ check_events (FormData.final_url (formData cur))
     ++ snd (after_gate w p cur)).
Proof.
  intros Hp Hf. step_handler. unfold bind at 1. unfold emit at 1.
  unfold bind at 1. rewrite (gate_pass w _ cur Hp).
  unfold bind at 1. rewrite (gate_pass w _ cur Hf).
  unfold after_gate, submit_query, success_message, closedState, failure_events.
  unfold try_catch, bind, emit.
  destruct (getUser w) as [[u |] | e]; simpl; try reflexivity.
  destruct (editingVersion cur) as [v |]; simpl.
  - destruct (db_query w (update_query w v (formData cur))); simpl;
      [destruct (onVersionsUpdate w) as [[] |] |]; reflexivity.
  - destruct (db_query w (insert_query p (formData cur) u)); simpl;
      [destruct (onVersionsUpdate w) as [[] |] |]; reflexivity.
Qed.

(** ** The next version number *)

Lemma fold_js_max_Num (zs : list Z) (a : Z) :
  fold_left js_max (map Num zs) (Num a) = Num (fold_left Z.max zs a).
Proof.
  revert a. induction zs as [| z zs IH]; intros a; simpl; [reflexivity |].
  apply IH.
Qed.

Lemma fold_Zmax_spec (zs : list Z) (a : Z) :
  a <= fold_left Z.max zs a
  /\ Forall (fun x => x <= fold_left Z.max zs a) zs
  /\ (fold_left Z.max zs a = a \/ In (fold_left Z.max zs a) zs).
Proof.
  revert a. induction zs as [| z zs IH]; intros a; simpl.
  - repeat split; [lia | constructor | now left].
  - destruct (IH (Z.max a z)) as (Hle & Hall & Hin).
    repeat split; [lia | constructor; [lia | exact Hall] |].
    destruct Hin as [Heq | Hin]; [| right; right; exact Hin].
    rewrite Heq. destruct (Z.max_spec a z) as [[_ ->] | [_ ->]];
      [right; left; reflexivity | left; reflexivity].
Qed.

Lemma Math_max_cons (z : Z) (zs : list Z) :
  exists m, Math_max (map Num (z :: zs)) = Num m /\ is_max_of m (z :: zs).
Proof.
  unfold Math_max. simpl. rewrite fold_js_max_Num.
  destruct (fold_Zmax_spec zs z) as (Hle & Hall & Hin).
  exists (fold_left Z.max zs z). split; [reflexivity |]. split.
  - destruct Hin as [-> | Hin]; [now left | now right].
  - constructor; assumption.
Qed.

Lemma round_to_double_succ_safe (z : Z) :
  safe_integer z -> round_to_double (z + 1) = z + 1.
Proof.
  unfold safe_integer, round_to_double, two53. intros [Hlo Hhi].
  destruct (Z.eq_dec (z + 1) 9007199254740992) as [-> | Hne]; [reflexivity |].
  replace (Z.abs (z + 1) <? 9007199254740992) with true; [reflexivity |].
  symmetry. apply Z.ltb_lt. lia.
Qed.

Lemma nextVersionNumber_cons (v : Version.t) (vs : list Version.t) :
  exists m, is_max_of m (version_numbers (v :: vs))
            /\ nextVersionNumber (v :: vs) = Num (round_to_double (m + 1)).
Proof.
  destruct (Math_max_cons (Version.version_number v) (version_numbers vs))
    as (m & Hm & Hmax).
  exists m. split; [exact Hmax |].
  unfold nextVersionNumber, version_numbers in *.
  replace (0 <? Z.of_nat (length (v :: vs))) with true
    by (symmetry; apply Z.ltb_lt; simpl; lia).
  rewrite <- (map_map Version.version_number Num (v :: vs)).
  simpl map at 1. simpl in Hm. rewrite Hm. reflexivity.
Qed.

(** C1.  For a list whose version numbers are safe integers (of magnitude
    at most 2^53 - 1), the number given to a new version is 1 for an empty
    list and one more than the greatest [version_number] of the list
    otherwise, and that is the [version_number] the insert writes. *)
Theorem next_version_number_is_max_plus_one (p : Props) (f : FormData.t) (u : User) :
  List.Forall safe_integer (version_numbers (versions p)) ->
  ((versions p = [] /\ nextVersionNumber (versions p) = Num 1)
   \/ (versions p <> [] /\
       exists m, is_max_of m (version_numbers (versions p))
                 /\ nextVersionNumber (versions p) = Num (m + 1)))
  /\ written (insert_query p f u) "version_number"
     = Some (JNumber (nextVersionNumber (versions p))).
Proof.
  intros Hsafe. split; [| reflexivity].
  destruct (versions p) as [| v vs]; [left; split; reflexivity | right].
  split; [discriminate |].
  destruct (nextVersionNumber_cons v vs) as (m & Hmax & Hnext).
  exists m. split; [exact Hmax |].
  rewrite Hnext. f_equal. apply round_to_double_succ_safe.
  rewrite List.Forall_forall in Hsafe. apply Hsafe. apply Hmax.
Qed.

Lemma next_version_number_is_max_plus_one_witness :
  List.Forall safe_integer (version_numbers (versions Sample.props))
  /\ exists m, is_max_of m (version_numbers (versions Sample.props))
               /\ nextVersionNumber (versions Sample.props) = Num (m + 1).
Proof.
  assert (Hsafe : List.Forall safe_integer
                    (version_numbers (versions Sample.props)))
    by (repeat constructor).
  split; [exact Hsafe |].
  destruct (next_version_number_is_max_plus_one Sample.props
              (FormData.mk "" "") {| user_id := "user-1" |} Hsafe)
    as [[[Hnil _] | [_ Hmax]] _]; [discriminate Hnil | exact Hmax].
Defined.

(** Beyond the safe integers the sum is rounded: for a list whose only
    version is numbered 2^53, [Math.max(...) + 1] is 2^53 again, not
    2^53 + 1.  So the statement does not hold for every list. *)
Lemma next_version_number_rounds_at_two53 :
  ~ (forall vs : list Version.t,
       (vs = [] /\ nextVersionNumber vs = Num 1)
       \/ (vs <> [] /\
           exists m, is_max_of m (version_numbers vs)
                     /\ nextVersionNumber vs = Num (m + 1))).
Proof.
  intros H.
  destruct (H [Sample.version "a" two53 false])
    as [[Hnil _] | [_ (m & [Hin _] & Hnext)]]; [discriminate Hnil |].
  destruct Hin as [<- | []].
  vm_compute in Hnext. discriminate Hnext.
Qed.

(** The scenario of the specification: versions numbered 1, 2 and 4. *)
Example next_version_number_1_2_4 :
  nextVersionNumber (versions Sample.props) = Num 5.
Proof. reflexivity. Qed.

(** ** Observations distribute over a trace *)

Lemma db_calls_app (t1 t2 : list Event) :
  db_calls (t1 ++ t2) = db_calls t1 ++ db_calls t2.
Proof.
  induction t1 as [| e t1 IH]; simpl; [reflexivity |].
  destruct e; simpl; rewrite IH; reflexivity.
Qed.

Lemma notifications_app (t1 t2 : list Event) :
  notifications (t1 ++ t2) = notifications t1 ++ notifications t2.
Proof.
  induction t1 as [| e t1 IH]; simpl; [reflexivity |].
  destruct e; simpl; rewrite IH; reflexivity.
Qed.

Lemma url_checks_app (t1 t2 : list Event) :
  url_checks (t1 ++ t2) = url_checks t1 ++ url_checks t2.
Proof.
  induction t1 as [| e t1 IH]; simpl; [reflexivity |].
  destruct e; simpl; rewrite IH; reflexivity.
Qed.

Lemma refresh_calls_app (t1 t2 : list Event) :
  refresh_calls (t1 ++ t2) = (refresh_calls t1 + refresh_calls t2)%nat.
Proof.
  induction t1 as [| e t1 IH]; simpl; [reflexivity |].
  destruct e; simpl; rewrite IH; reflexivity.
Qed.

Lemma check_events_quiet (s : string) :
  db_calls (check_events s) = []
  /\ notifications (check_events s) = []
  /\ refresh_calls (check_events s) = O
  /\ ~ In EvGetUser (check_events s).
Proof.
  unfold check_events. destruct (truthy s); simpl; intuition discriminate.
Qed.

Lemma url_checks_check_events (s : string) :
  url_checks (check_events s) = if truthy s then [s] else [].
Proof. unfold check_events. destruct (truthy s); reflexivity. Qed.

Lemma check_events_empty : check_events "" = [].
Proof. reflexivity. Qed.

Lemma field_ok_empty (w : World) : field_ok w "" = true.
Proof. reflexivity. Qed.

Lemma field_ok_false (w : World) (s : string) :
  field_ok w s = false <-> truthy s = true /\ url_parses w s = false.
Proof.
  unfold field_ok. destruct (truthy s), (url_parses w s); simpl; intuition congruence.
Qed.

Lemma db_calls_after_gate (w : World) (p : Props) (cur : State) :
  db_calls (snd (after_gate w p cur)) =
    match getUser w with
    | Resolved (Some u) => [submit_query w p cur u]
    | _ => []
    end.
Proof.
  unfold after_gate, failure_events.
  destruct (getUser w) as [[u |] | e]; simpl; try reflexivity.
  destruct (db_query w (submit_query w p cur u)); simpl; [| reflexivity].
  destruct (onVersionsUpdate w); reflexivity.
Qed.

Lemma url_checks_after_gate (w : World) (p : Props) (cur : State) :
  url_checks (snd (after_gate w p cur)) = [].
Proof.
  unfold after_gate, failure_events.
  destruct (getUser w) as [[u |] | e]; simpl; try reflexivity.
  destruct (db_query w (submit_query w p cur u)); simpl; [| reflexivity].
  destruct (onVersionsUpdate w); reflexivity.
Qed.

Lemma validation_errors_after_gate (w : World) (p : Props) (cur : State) :
  validation_errors (snd (after_gate w p cur)) = [].
Proof.
  unfold validation_errors, after_gate, failure_events, success_message.
  destruct (getUser w) as [[u |] | e]; simpl; try reflexivity.
  destruct (db_query w (submit_query w p cur u)); simpl; [| reflexivity].
  destruct (editingVersion cur), (onVersionsUpdate w); reflexivity.
Qed.

(** The trace of a run that passed the gate, seen through an observation
    that ignores the [URL] constructor calls. *)
Lemma gate_passed_db_calls (w : World) (p : Props) (cur : State) :
  field_ok w (FormData.preview_url (formData cur)) = true ->
  field_ok w (FormData.final_url (formData cur)) = true ->
  db_calls (trace (submit w p cur)) = db_calls (snd (after_gate w p cur)).
Proof.
  intros Hp Hf. rewrite (submit_gate_passed w p cur Hp Hf). unfold trace; simpl.
  rewrite !db_calls_app.
  destruct (check_events_quiet (FormData.preview_url (formData cur))) as (-> & _).
  destruct (check_events_quiet (FormData.final_url (formData cur))) as (-> & _).
  reflexivity.
Qed.

Lemma gate_passed_notifications (w : World) (p : Props) (cur : State) :
  field_ok w (FormData.preview_url (formData cur)) = true ->
  field_ok w (FormData.final_url (formData cur)) = true ->
  notifications (trace (submit w p cur)) = notifications (snd (after_gate w p cur)).
Proof.
  intros Hp Hf. rewrite (submit_gate_passed w p cur Hp Hf). unfold trace; simpl.
  rewrite !notifications_app.
  destruct (check_events_quiet (FormData.preview_url (formData cur))) as (_ & -> & _).
  destruct (check_events_quiet (FormData.final_url (formData cur))) as (_ & -> & _).
  reflexivity.
Qed.

Lemma gate_passed_refresh_calls (w : World) (p : Props) (cur : State) :
  field_ok w (FormData.preview_url (formData cur)) = true ->
  field_ok w (FormData.final_url (formData cur)) = true ->
  refresh_calls (trace (submit w p cur)) = refresh_calls (snd (after_gate w p cur)).
Proof.
  intros Hp Hf. rewrite (submit_gate_passed w p cur Hp Hf). unfold trace; simpl.
  rewrite !refresh_calls_app.
  destruct (check_events_quiet (FormData.preview_url (formData cur))) as (_ & _ & -> & _).
  destruct (check_events_quiet (FormData.final_url (formData cur))) as (_ & _ & -> & _).
  reflexivity.
Qed.

Lemma gate_passed_final_state (w : World) (p : Props) (cur : State) :
  field_ok w (FormData.preview_url (formData cur)) = true ->
  field_ok w (FormData.final_url (formData cur)) = true ->
  final_state (submit w p cur) = fst (after_gate w p cur).
Proof.
  intros Hp Hf. rewrite (submit_gate_passed w p cur Hp Hf). reflexivity.
Qed.

(** ** The validation gate *)

(** C2.  When a draft field is non-empty and does not parse as a URL, the
    submission stops at the gate: no query reaches the persistence adapter
    (the authentication client is not even asked), exactly one toast is
    shown and it is the error of an offending field, and the dialog, the
    draft and the edit target are what they were. *)
Theorem invalid_url_blocks_submission (w : World) (p : Props) (cur : State) :
  offending w PreviewField (formData cur)
  \/ offending w FinalField (formData cur) ->
  db_calls (trace (submit w p cur)) = []
  /\ ~ In EvGetUser (trace (submit w p cur))
  /\ refresh_calls (trace (submit w p cur)) = O
  /\ final_state (submit w p cur) = cur
  /\ exists fld, offending w fld (formData cur)
                 /\ notifications (trace (submit w p cur)) = [field_error fld].
Proof.
  intros Hbad.
  destruct (field_ok w (FormData.preview_url (formData cur))) eqn:Hp.
  - destruct Hbad as [[Hne Hf] | [Hne Hf]].
    + apply truthy_true_iff in Hne. simpl in Hne, Hf.
      unfold field_ok in Hp. rewrite Hne, Hf in Hp. discriminate.
    + assert (Ht := proj2 (truthy_true_iff _) Hne). simpl in Ht, Hf.
      rewrite (submit_bad_final w p cur Hp Ht Hf). unfold trace, final_state; simpl.
      rewrite db_calls_app, notifications_app, refresh_calls_app.
      destruct (check_events_quiet (FormData.preview_url (formData cur)))
        as (-> & -> & -> & Hno).
      repeat split; try reflexivity.
      * intros [Hin | Hin]; [discriminate |].
        apply in_app_or in Hin. destruct Hin as [Hin | Hin]; [tauto |].
        simpl in Hin. intuition discriminate.
      * exists FinalField. split; [split; assumption | reflexivity].
  - apply field_ok_false in Hp. destruct Hp as [Ht Hf].
    rewrite (submit_bad_preview w p cur Ht Hf). unfold trace, final_state; simpl.
    repeat split; try reflexivity.
    + intuition discriminate.
    + exists PreviewField. split; [| reflexivity].
      split; [apply truthy_true_iff; exact Ht | exact Hf].
Qed.

Lemma invalid_url_blocks_submission_witness :
  offending Sample.world FinalField
    (formData (Sample.draft "" "not-a-url" (Some (Sample.version "b" 2 false))))
  /\ db_calls (trace (submit Sample.world Sample.props
        (Sample.draft "" "not-a-url" (Some (Sample.version "b" 2 false))))) = []
  /\ notifications (trace (submit Sample.world Sample.props
        (Sample.draft "" "not-a-url" (Some (Sample.version "b" 2 false)))))
     = [NError "Please enter a valid final URL"].
Proof.
  assert (H : offending Sample.world FinalField
    (formData (Sample.draft "" "not-a-url" (Some (Sample.version "b" 2 false))))).
  { split; [discriminate | reflexivity]. }
  split; [exact H |].
  destruct (invalid_url_blocks_submission Sample.world Sample.props
              (Sample.draft "" "not-a-url" (Some (Sample.version "b" 2 false)))
              (or_intror H)) as (Hdb & _ & _ & _ & _).
  split; [exact Hdb | reflexivity].
Defined.

Lemma submit_query_writes_null (w : World) (p : Props) (cur : State)
    (u : User) (fld : Field) :
  field_value fld (formData cur) = "" ->
  written (submit_query w p cur u) (field_key fld) = Some JNull.
Proof.
  unfold submit_query, written, update_query, insert_query, update_data,
    insert_data.
  destruct fld; simpl; intros ->; destruct (editingVersion cur); reflexivity.
Qed.

Lemma submit_query_writes_or_null (w : World) (p : Props) (cur : State)
    (u : User) (fld : Field) :
  written (submit_query w p cur u) (field_key fld)
  = Some (or_null (field_value fld (formData cur))).
Proof.
  unfold submit_query, written, update_query, insert_query, update_data,
    insert_data.
  destruct fld; simpl; destruct (editingVersion cur); reflexivity.
Qed.

Lemma gate_passed_empty_field (w : World) (p : Props) (cur : State)
    (fld : Field) :
  field_value fld (formData cur) = "" ->
  field_ok w (FormData.preview_url (formData cur)) = true ->
  field_ok w (FormData.final_url (formData cur)) = true ->
  ~ In (field_error fld) (notifications (trace (submit w p cur)))
  /\ db_calls (trace (submit w p cur))
     = match getUser w with
       | Resolved (Some u) => [submit_query w p cur u]
       | _ => []
       end
  /\ Forall (fun q => written q (field_key fld) = Some JNull)
       (db_calls (trace (submit w p cur))).
Proof.
  intros Hempty Hp Hf.
  rewrite (gate_passed_notifications w p cur Hp Hf),
    (gate_passed_db_calls w p cur Hp Hf), db_calls_after_gate.
  split; [| split; [reflexivity |]].
  - intros Hin.
    assert (Hv : In (field_error fld)
                   (validation_errors (snd (after_gate w p cur)))).
    { apply filter_In. split; [exact Hin | destruct fld; reflexivity]. }
    rewrite validation_errors_after_gate in Hv. exact Hv.
  - destruct (getUser w) as [[u |] | e]; repeat constructor.
    apply submit_query_writes_null. exact Hempty.
Qed.

(** C3.  An empty draft field is not handed to the URL parser and never
    produces its validation error; the submission goes on to the other
    field, to the authentication client and to the store exactly as these
    decide, and every query it sends writes [null] under that field's key. *)
Theorem empty_field_is_skipped_and_stored_as_null
    (w : World) (p : Props) (cur : State) (fld : Field) :
  field_value fld (formData cur) = "" ->
  url_checks (trace (submit w p cur))
    = (if truthy (field_value (other_field fld) (formData cur))
       then [field_value (other_field fld) (formData cur)] else [])
  /\ ~ In (field_error fld) (notifications (trace (submit w p cur)))
  /\ db_calls (trace (submit w p cur))
     = (if field_ok w (field_value (other_field fld) (formData cur))
        then match getUser w with
             | Resolved (Some u) => [submit_query w p cur u]
             | _ => []
             end
        else [])
  /\ Forall (fun q => written q (field_key fld) = Some JNull)
       (db_calls (trace (submit w p cur))).
Proof.
  intros Hempty.
  destruct fld; simpl in Hempty |- *.
  - (* the preview field is empty *)
    assert (Hp : field_ok w (FormData.preview_url (formData cur)) = true)
      by (rewrite Hempty; reflexivity).
    destruct (field_ok w (FormData.final_url (formData cur))) eqn:Hf.
    + destruct (gate_passed_empty_field w p cur PreviewField Hempty Hp Hf)
        as (Hn & Hdb & Hall).
      repeat split; [| exact Hn | exact Hdb | exact Hall].
      rewrite (submit_gate_passed w p cur Hp Hf).
      unfold trace; simpl. rewrite Hempty, check_events_empty; simpl.
      rewrite url_checks_app, url_checks_after_gate, app_nil_r.
      apply url_checks_check_events.
    + apply field_ok_false in Hf. destruct Hf as [Ht Hpf].
      rewrite (submit_bad_final w p cur Hp Ht Hpf).
      unfold trace; simpl. rewrite Hempty, check_events_empty, Ht; simpl.
      repeat split; try constructor. intuition discriminate.
  - (* the final field is empty *)
    assert (Hf : field_ok w (FormData.final_url (formData cur)) = true)
      by (rewrite Hempty; reflexivity).
    destruct (field_ok w (FormData.preview_url (formData cur))) eqn:Hp.
    + destruct (gate_passed_empty_field w p cur FinalField Hempty Hp Hf)
        as (Hn & Hdb & Hall).
      repeat split; [| exact Hn | exact Hdb | exact Hall].
      rewrite (submit_gate_passed w p cur Hp Hf).
      unfold trace; simpl. rewrite Hempty, check_events_empty; simpl.
      rewrite url_checks_app, url_checks_after_gate, app_nil_r.
      apply url_checks_check_events.
    + apply field_ok_false in Hp. destruct Hp as [Ht Hpf].
      rewrite (submit_bad_preview w p cur Ht Hpf).
      unfold trace; simpl. rewrite Ht.
      repeat split; try constructor. intuition discriminate.
Qed.

Lemma empty_field_is_skipped_and_stored_as_null_witness :
  field_value FinalField
    (formData (Sample.draft "https://example.com/a" "" None)) = ""
  /\ url_checks (trace (submit Sample.world Sample.props
        (Sample.draft "https://example.com/a" "" None)))
     = ["https://example.com/a"]
  /\ Forall (fun q => written q "final_url" = Some JNull)
       (db_calls (trace (submit Sample.world Sample.props
          (Sample.draft "https://example.com/a" "" None))))
  /\ length (db_calls (trace (submit Sample.world Sample.props
        (Sample.draft "https://example.com/a" "" None)))) = 1%nat.
Proof.
  split; [reflexivity |].
  destruct (empty_field_is_skipped_and_stored_as_null Sample.world
              Sample.props (Sample.draft "https://example.com/a" "" None)
              FinalField eq_refl) as (Hchecks & _ & Hdb & Hall).
  split; [exact Hchecks |]. split; [exact Hall |].
  rewrite Hdb. reflexivity.
Defined.

(** ** The save block *)

(** C4.  With a draft that passes the gate and no signed-in user, the
    handler returns after the authentication call: no query, no toast, no
    refresh, and the dialog, the draft and the edit target stay as they
    were. *)
Theorem no_user_aborts_silently (w : World) (p : Props) (cur : State) :
  field_ok w (FormData.preview_url (formData cur)) = true ->
  field_ok w (FormData.final_url (formData cur)) = true ->
  getUser w = Resolved None ->
  fst (fst (submit w p cur)) = Ok tt
  /\ db_calls (trace (submit w p cur)) = []
  /\ notifications (trace (submit w p cur)) = []
  /\ refresh_calls (trace (submit w p cur)) = O
  /\ final_state (submit w p cur) = cur.
Proof.
  intros Hp Hf Hu.
  rewrite (gate_passed_db_calls w p cur Hp Hf),
    (gate_passed_notifications w p cur Hp Hf),
    (gate_passed_refresh_calls w p cur Hp Hf),
    (gate_passed_final_state w p cur Hp Hf),
    (submit_gate_passed w p cur Hp Hf).
  unfold after_gate. rewrite Hu. simpl. repeat split; reflexivity.
Qed.

Lemma no_user_aborts_silently_witness :
  trace (submit Sample.signed_out Sample.props
           (Sample.draft "https://example.com/a" "" None))
  = [EvPreventDefault; EvNewURL "https://example.com/a"; EvGetUser]
  /\ notifications (trace (submit Sample.signed_out Sample.props
        (Sample.draft "https://example.com/a" "" None))) = []
  /\ final_state (submit Sample.signed_out Sample.props
        (Sample.draft "https://example.com/a" "" None))
     = Sample.draft "https://example.com/a" "" None.
Proof.
  destruct (no_user_aborts_silently Sample.signed_out Sample.props
              (Sample.draft "https://example.com/a" "" None)
              eq_refl eq_refl eq_refl) as (_ & _ & Hn & _ & Hs).
  split; [reflexivity |]. split; [exact Hn | exact Hs].
Defined.

(** C5.  When the gate is passed, a user is signed in and the store accepts
    the query, the dialog is closed, both draft fields are empty, no version
    is being edited, the first toast is the success message of the path
    taken ("updated" when editing, "created" otherwise), and the refresh
    callback is called exactly once.  The only toast that can follow is the
    failure toast of a callback that throws. *)
Theorem successful_save_resets_and_refreshes
    (w : World) (p : Props) (cur : State) (u : User) :
  field_ok w (FormData.preview_url (formData cur)) = true ->
  field_ok w (FormData.final_url (formData cur)) = true ->
  getUser w = Resolved (Some u) ->
  db_query w (submit_query w p cur u) = Resolved tt ->
  final_state (submit w p cur)
    = {| dialogOpen := false;
         editingVersion := None;
         formData := FormData.mk "" "" |}
  /\ notifications (trace (submit w p cur))
     = NSuccess (match editingVersion cur with
                 | Some _ => "Version updated successfully"
                 | None => "New version created successfully"
                 end)
       :: match onVersionsUpdate w with
          | Resolved _ => []
          | Rejected _ => [NError "Failed to save version"]
          end
  /\ refresh_calls (trace (submit w p cur)) = 1%nat
  /\ db_calls (trace (submit w p cur)) = [submit_query w p cur u].
Proof.
  intros Hp Hf Hu Hq.
  rewrite (gate_passed_db_calls w p cur Hp Hf),
    (gate_passed_notifications w p cur Hp Hf),
    (gate_passed_refresh_calls w p cur Hp Hf),
    (gate_passed_final_state w p cur Hp Hf).
  unfold after_gate. rewrite Hu. simpl. rewrite Hq. simpl.
  unfold success_message.
  destruct (onVersionsUpdate w); repeat split; reflexivity.
Qed.

Lemma successful_save_resets_and_refreshes_witness :
  final_state (submit Sample.world Sample.props
     (Sample.draft "https://example.com/a" ""
        (Some (Sample.version "b" 2 false))))
  = initialState
  /\ notifications (trace (submit Sample.world Sample.props
       (Sample.draft "https://example.com/a" ""
          (Some (Sample.version "b" 2 false)))))
     = [NSuccess "Version updated successfully"]
  /\ refresh_calls (trace (submit Sample.world Sample.props
       (Sample.draft "https://example.com/a" ""
          (Some (Sample.version "b" 2 false))))) = 1%nat.
Proof.
  destruct (successful_save_resets_and_refreshes Sample.world Sample.props
              (Sample.draft "https://example.com/a" ""
                 (Some (Sample.version "b" 2 false)))
              {| user_id := "user-1" |} eq_refl eq_refl eq_refl eq_refl)
    as (Hs & Hn & Hr & _).
  split; [exact Hs |]. split; [exact Hn | exact Hr].
Defined.

(** C6.  When the gate is passed, a user is signed in and the store rejects
    the query, the only toast is the generic failure message, the refresh
    callback is not called, and the dialog, the draft and the edit target
    are exactly what they were before the submission. *)
Theorem failed_save_keeps_draft
    (w : World) (p : Props) (cur : State) (u : User) (err : string) :
  field_ok w (FormData.preview_url (formData cur)) = true ->
  field_ok w (FormData.final_url (formData cur)) = true ->
  getUser w = Resolved (Some u) ->
  db_query w (submit_query w p cur u) = Rejected err ->
  final_state (submit w p cur) = cur
  /\ notifications (trace (submit w p cur)) = [NError "Failed to save version"]
  /\ refresh_calls (trace (submit w p cur)) = O
  /\ db_calls (trace (submit w p cur)) = [submit_query w p cur u].
Proof.
  intros Hp Hf Hu Hq.
  rewrite (gate_passed_db_calls w p cur Hp Hf),
    (gate_passed_notifications w p cur Hp Hf),
    (gate_passed_refresh_calls w p cur Hp Hf),
    (gate_passed_final_state w p cur Hp Hf).
  unfold after_gate. rewrite Hu. simpl. rewrite Hq. simpl.
  repeat split; reflexivity.
Qed.

Lemma failed_save_keeps_draft_witness :
  final_state (submit Sample.store_down Sample.props
     (Sample.draft "https://example.com/a" "https://example.com/b" None))
  = Sample.draft "https://example.com/a" "https://example.com/b" None
  /\ notifications (trace (submit Sample.store_down Sample.props
       (Sample.draft "https://example.com/a" "https://example.com/b" None)))
     = [NError "Failed to save version"]
  /\ refresh_calls (trace (submit Sample.store_down Sample.props
       (Sample.draft "https://example.com/a" "https://example.com/b" None)))
     = O.
Proof.
  destruct (failed_save_keeps_draft Sample.store_down Sample.props
              (Sample.draft "https://example.com/a" "https://example.com/b" None)
              {| user_id := "user-1" |} "network error"
              eq_refl eq_refl eq_refl eq_refl)
    as (Hs & Hn & Hr & _).
  split; [exact Hs |]. split; [exact Hn | exact Hr].
Defined.

(** ** What the save block writes *)

(** C8.  Once the gate is passed and a user is signed in, exactly one query
    is sent.  When a version is being edited it is an update of the row with
    that version's id whose data has the keys [preview_url], [final_url] and
    [updated_at] and no others, so in particular not [is_approved].
    Otherwise it is an insert whose data has [is_approved = false] and
    [uploaded_by] equal to the signed-in user's id. *)
Theorem save_writes_only_its_fields
    (w : World) (p : Props) (cur : State) (u : User) :
  field_ok w (FormData.preview_url (formData cur)) = true ->
  field_ok w (FormData.final_url (formData cur)) = true ->
  getUser w = Resolved (Some u) ->
  exists q,
    db_calls (trace (submit w p cur)) = [q]
    /\ collection q = "video_versions"
    /\ written q "preview_url"
       = Some (or_null (FormData.preview_url (formData cur)))
    /\ written q "final_url"
       = Some (or_null (FormData.final_url (formData cur)))
    /\ match editingVersion cur with
       | Some v =>
           operation q = Update
           /\ where_id q = Some (Version.id v)
           /\ written_keys q = {[ "preview_url"; "final_url"; "updated_at" ]}
           /\ written q "updated_at" = Some (JString (now_iso w))
           /\ written q "is_approved" = None
       | None =>
           operation q = Insert
           /\ where_id q = None
           /\ written q "is_approved" = Some (JBool false)
           /\ written q "uploaded_by" = Some (JString (user_id u))
           /\ written q "project_id" = Some (JString (projectId p))
           /\ written q "version_number"
              = Some (JNumber (nextVersionNumber (versions p)))
       end.
Proof.
  intros Hp Hf Hu. exists (submit_query w p cur u).
  rewrite (gate_passed_db_calls w p cur Hp Hf), db_calls_after_gate, Hu.
  split; [reflexivity |].
  split; [unfold submit_query; destruct (editingVersion cur); reflexivity |].
  split; [apply (submit_query_writes_or_null w p cur u PreviewField) |].
  split; [apply (submit_query_writes_or_null w p cur u FinalField) |].
  unfold submit_query. destruct (editingVersion cur) as [v |].
  - repeat split; try reflexivity.
  - repeat split; reflexivity.
Qed.

Lemma save_writes_only_its_fields_witness :
  exists q,
    db_calls (trace (submit Sample.world Sample.props
       (Sample.draft "" "https://example.com/final"
          (Some (Sample.version "b" 2 false))))) = [q]
    /\ operation q = Update
    /\ where_id q = Some "b"
    /\ written q "preview_url" = Some JNull
    /\ written q "final_url" = Some (JString "https://example.com/final")
    /\ written q "is_approved" = None.
Proof.
  destruct (save_writes_only_its_fields Sample.world Sample.props
              (Sample.draft "" "https://example.com/final"
                 (Some (Sample.version "b" 2 false)))
              {| user_id := "user-1" |} eq_refl eq_refl eq_refl)
    as (q & Hq & _ & Hpre & Hfin & Hop & Hid & _ & _ & Happr).
  exists q. repeat split; assumption.
Defined.

(** The first scenario of the specification: an empty list and a draft with
    a preview URL only. *)
Example first_version_scenario :
  let q := insert_query
             {| projectId := "project-1"; versions := []; userRole := None |}
             (FormData.mk "https://example.com/a" "") {| user_id := "user-1" |} in
  db_calls (trace (submit Sample.world
     {| projectId := "project-1"; versions := []; userRole := None |}
     (Sample.draft "https://example.com/a" "" None))) = [q]
  /\ written q "version_number" = Some (JNumber (Num 1))
  /\ written q "preview_url" = Some (JString "https://example.com/a")
  /\ written q "final_url" = Some JNull
  /\ written q "is_approved" = Some (JBool false).
Proof. repeat split; reflexivity. Qed.

(** ** Order of the checks *)

(** C10.  When both draft fields are non-empty and neither parses, the run
    consists of the check of the preview field and its error toast: the
    [URL] constructor is called once, on the preview field, and the only
    toast is the preview error. *)
Theorem validation_stops_at_preview (w : World) (p : Props) (cur : State) :
  offending w PreviewField (formData cur) ->
  offending w FinalField (formData cur) ->
  trace (submit w p cur)
    = [EvPreventDefault;
       EvNewURL (FormData.preview_url (formData cur));
       EvToastError "Please enter a valid preview URL"]
  /\ url_checks (trace (submit w p cur))
     = [FormData.preview_url (formData cur)]
  /\ notifications (trace (submit w p cur))
     = [NError "Please enter a valid preview URL"]
  /\ length (validation_errors (trace (submit w p cur))) = 1%nat.
Proof.
  intros [Hne Hpf] _. apply truthy_true_iff in Hne. simpl in Hne, Hpf.
  rewrite (submit_bad_preview w p cur Hne Hpf). repeat split; reflexivity.
Qed.

Lemma validation_stops_at_preview_witness :
  offending Sample.world PreviewField (formData (Sample.draft "foo" "bar" None))
  /\ offending Sample.world FinalField (formData (Sample.draft "foo" "bar" None))
  /\ notifications (trace (submit Sample.world Sample.props
                             (Sample.draft "foo" "bar" None)))
     = [NError "Please enter a valid preview URL"]
  /\ url_checks (trace (submit Sample.world Sample.props
                          (Sample.draft "foo" "bar" None)))
     = ["foo"].
Proof.
  assert (H1 : offending Sample.world PreviewField
                 (formData (Sample.draft "foo" "bar" None)))
    by (split; [discriminate | reflexivity]).
  assert (H2 : offending Sample.world FinalField
                 (formData (Sample.draft "foo" "bar" None)))
    by (split; [discriminate | reflexivity]).
  destruct (validation_stops_at_preview Sample.world Sample.props
              (Sample.draft "foo" "bar" None) H1 H2) as (_ & Hu & Hn & _).
  repeat split; try assumption; try reflexivity; try discriminate.
Defined.

(** No submission shows more than one validation error. *)
Lemma validation_errors_at_most_one (w : World) (p : Props) (cur : State) :
  (length (validation_errors (trace (submit w p cur))) <= 1)%nat.
Proof.
  destruct (field_ok w (FormData.preview_url (formData cur))) eqn:Hp.
  - destruct (field_ok w (FormData.final_url (formData cur))) eqn:Hf.
    + unfold validation_errors.
      rewrite (gate_passed_notifications w p cur Hp Hf).
      fold (validation_errors (snd (after_gate w p cur))).
      rewrite validation_errors_after_gate. simpl. lia.
    + apply field_ok_false in Hf. destruct Hf as [Ht Hpf].
      rewrite (submit_bad_final w p cur Hp Ht Hpf).
      unfold validation_errors, trace; simpl.
      rewrite notifications_app.
      destruct (check_events_quiet (FormData.preview_url (formData cur)))
        as (_ & -> & _).
      simpl. lia.
  - apply field_ok_false in Hp. destruct Hp as [Ht Hpf].
    rewrite (submit_bad_preview w p cur Ht Hpf). simpl. lia.
Qed.

(** ** Approval *)

Lemma approve_trace (w : World) (cur : State) (versionId : string) :
  db_calls (trace (run (handleApprove w versionId) cur))
  = [approve_query versionId].
Proof.
  unfold run, trace, handleApprove, db_query_call, call_onVersionsUpdate,
    toast_success, toast_error, console_error, try_catch, bind, emit, await.
  destruct (db_query w (approve_query versionId)); simpl;
    [destruct (onVersionsUpdate w) |]; reflexivity.
Qed.

(** C7.  The update sent by [handleSubmit] writes [updated_at] with the
    current time, but the update sent by [handleApprove] writes
    [is_approved] and nothing else: its data has no [updated_at]. *)
Theorem approve_update_omits_updated_at
    (w : World) (cur : State) (versionId : string) :
  db_calls (trace (run (handleApprove w versionId) cur))
  = [approve_query versionId]
  /\ operation (approve_query versionId) = Update
  /\ where_id (approve_query versionId) = Some versionId
  /\ written_keys (approve_query versionId) = {[ "is_approved" ]}
  /\ written (approve_query versionId) "is_approved" = Some (JBool true)
  /\ written (approve_query versionId) "updated_at" = None
  /\ forall v f, written (update_query w v f) "updated_at"
                 = Some (JString (now_iso w)).
Proof.
  split; [apply approve_trace |]. repeat split; reflexivity.
Qed.

Lemma role_is_client_iff (role : option string) :
  role_is_client role = true <-> role = Some "client".
Proof.
  destruct role as [r |]; simpl; [| split; discriminate].
  rewrite String.eqb_eq. split; congruence.
Qed.

Lemma approve_in_rowActions (role : option string) (version : Version.t)
    (versionId : string) :
  In (ApproveButton versionId) (rowActions role version)
  <-> versionId = Version.id version
      /\ Version.is_approved version = false
      /\ role = Some "client".
Proof.
  unfold rowActions. rewrite <- role_is_client_iff.
  destruct (Version.is_approved version), (role_is_client role); simpl;
    intuition (try discriminate; try congruence).
Qed.

(** C9.  In the actions cell of every rendered row, the approve control
    (which approves that row's version) is present exactly when the
    version's [is_approved] is false and the role is ['client']; the rows
    are the supplied versions, in order. *)
Theorem approve_rendered_iff_pending_and_client (p : Props) :
  map fst (renderActions p) = versions p
  /\ Forall (fun row =>
       forall versionId,
         In (ApproveButton versionId) (snd row)
         <-> versionId = Version.id (fst row)
             /\ Version.is_approved (fst row) = false
             /\ userRole p = Some "client")
       (renderActions p).
Proof.
  unfold renderActions. split.
  - rewrite map_map. simpl. apply map_id.
  - apply List.Forall_forall. intros row Hin. apply List.in_map_iff in Hin.
    destruct Hin as (v & <- & _). intros versionId. simpl.
    apply approve_in_rowActions.
Qed.

(** An approved version shows no approve control, whatever the role. *)
Example approved_row_has_no_approve_control :
  rowActions (Some "client") (Sample.version "a" 1 true)
  = [EditButton (Sample.version "a" 1 true); DeleteButton "a"]
  /\ rowActions (Some "client") (Sample.version "b" 2 false)
     = [ApproveButton "b"; EditButton (Sample.version "b" 2 false);
        DeleteButton "b"]
  /\ rowActions (Some "editor") (Sample.version "b" 2 false)
     = [EditButton (Sample.version "b" 2 false); DeleteButton "b"].
Proof. repeat split; reflexivity. Qed.

(** * Further properties of the component *)

(** ** [isValidUrl] *)

(** [isValidUrl] never throws: it calls the [URL] constructor once on its
    argument, turns the constructor's exception into [false], and leaves the
    state alone. *)
Theorem isValidUrl_catches (w : World) (url : string) (s : State) :
  isValidUrl w url s = (Ok (url_parses w url), s, [EvNewURL url]).
Proof.
  unfold isValidUrl, new_URL, try_catch, bind, emit, ret, throw.
  destruct (url_parses w url); reflexivity.
Qed.

(** ** [handleSubmit] under every world *)

Lemma gate_open_true (w : World) (cur : State) :
  gate_open w cur = true <->
  field_ok w (FormData.preview_url (formData cur)) = true
  /\ field_ok w (FormData.final_url (formData cur)) = true.
Proof. unfold gate_open. apply andb_true_iff. Qed.

(** A run stopped by the gate. *)
Lemma submit_gate_closed (w : World) (p : Props) (cur : State) :
  gate_open w cur = false ->
  fst (fst (submit w p cur)) = Ok tt
  /\ final_state (submit w p cur) = cur
  /\ db_calls (trace (submit w p cur)) = []
  /\ refresh_calls (trace (submit w p cur)) = O
  /\ length (notifications (trace (submit w p cur))) = 1%nat
  /\ ~ In EvGetUser (trace (submit w p cur)).
Proof.
  unfold gate_open. intros Hg.
  destruct (field_ok w (FormData.preview_url (formData cur))) eqn:Hp.
  - simpl in Hg. apply field_ok_false in Hg. destruct Hg as [Ht Hf].
    rewrite (submit_bad_final w p cur Hp Ht Hf). unfold trace, final_state; simpl.
    rewrite db_calls_app, refresh_calls_app, notifications_app.
    destruct (check_events_quiet (FormData.preview_url (formData cur)))
      as (-> & -> & -> & Hno).
    repeat split; try reflexivity.
    intros [Hin | Hin]; [discriminate |].
    apply in_app_or in Hin. destruct Hin as [Hin | Hin]; [tauto |].
    simpl in Hin. intuition discriminate.
  - apply field_ok_false in Hp. destruct Hp as [Ht Hf].
    rewrite (submit_bad_preview w p cur Ht Hf). unfold trace, final_state; simpl.
    repeat split; try reflexivity. intuition discriminate.
Qed.

(** Exceptions never leave a handler: whatever the URL parser, the
    authentication client, the store and the callback do, [handleSubmit],
    [handleDelete] and [handleApprove] return normally. *)
Theorem handlers_never_throw
    (w : World) (p : Props) (cur : State) (versionId : string) :
  fst (fst (run (handleSubmit w p cur) cur)) = Ok tt
  /\ fst (fst (run (handleDelete w versionId) cur)) = Ok tt
  /\ fst (fst (run (handleApprove w versionId) cur)) = Ok tt.
Proof.
  split; [| split].
  - fold (submit w p cur). destruct (gate_open w cur) eqn:Hg.
    + apply gate_open_true in Hg. destruct Hg as [Hp Hf].
      rewrite (submit_gate_passed w p cur Hp Hf). reflexivity.
    + apply (submit_gate_closed w p cur Hg).
  - unfold run, handleDelete, db_query_call, call_onVersionsUpdate,
      toast_success, toast_error, console_error, try_catch, bind, emit, await.
    destruct (db_query w (delete_query versionId)); simpl;
      [destruct (onVersionsUpdate w) as [[] |] |]; reflexivity.
  - unfold run, handleApprove, db_query_call, call_onVersionsUpdate,
      toast_success, toast_error, console_error, try_catch, bind, emit, await.
    destruct (db_query w (approve_query versionId)); simpl;
      [destruct (onVersionsUpdate w) as [[] |] |]; reflexivity.
Qed.

(** A submission sends a query exactly when both fields pass the gate and
    the authentication client resolves a user, and then it sends one: the
    update of the edited row or the insert. *)
Theorem submit_queries_exactly (w : World) (p : Props) (cur : State) :
  db_calls (trace (submit w p cur))
  = if gate_open w cur
    then match getUser w with
         | Resolved (Some u) => [submit_query w p cur u]
         | _ => []
         end
    else [].
Proof.
  destruct (gate_open w cur) eqn:Hg.
  - apply gate_open_true in Hg. destruct Hg as [Hp Hf].
    rewrite (gate_passed_db_calls w p cur Hp Hf). apply db_calls_after_gate.
  - apply (submit_gate_closed w p cur Hg).
Qed.

(** The dialog is closed, the draft cleared and the refresh callback called
    exactly when the store accepted the write; in every other case the
    state is what it was and the callback is not called. *)
Theorem submit_resets_iff_write_accepted (w : World) (p : Props) (cur : State) :
  final_state (submit w p cur)
  = (if write_accepted w p cur then initialState else cur)
  /\ refresh_calls (trace (submit w p cur))
     = (if write_accepted w p cur then 1%nat else O).
Proof.
  unfold write_accepted. destruct (gate_open w cur) eqn:Hg; simpl.
  - apply gate_open_true in Hg. destruct Hg as [Hp Hf].
    rewrite (gate_passed_final_state w p cur Hp Hf),
      (gate_passed_refresh_calls w p cur Hp Hf).
    unfold after_gate, failure_events.
    destruct (getUser w) as [[u |] | e]; simpl; try (split; reflexivity).
    destruct (db_query w (submit_query w p cur u)); simpl;
      [destruct (onVersionsUpdate w) |]; split; reflexivity.
  - destruct (submit_gate_closed w p cur Hg) as (_ & Hs & _ & Hr & _).
    split; assumption.
Qed.

(** The only submission without a toast is the one of a signed-out user
    with a draft that passes the gate. *)
Theorem submit_silent_iff_signed_out (w : World) (p : Props) (cur : State) :
  notifications (trace (submit w p cur)) = []
  <-> gate_open w cur = true /\ getUser w = Resolved None.
Proof.
  destruct (gate_open w cur) eqn:Hg.
  - destruct (proj1 (gate_open_true w cur) Hg) as [Hp Hf].
    rewrite (gate_passed_notifications w p cur Hp Hf).
    unfold after_gate, failure_events.
    destruct (getUser w) as [[u |] | e]; simpl.
    + destruct (db_query w (submit_query w p cur u)); simpl;
        split; intros H; try discriminate; destruct H; discriminate.
    + split; intros; [split |]; reflexivity.
    + split; intros H; try discriminate; destruct H; discriminate.
  - destruct (submit_gate_closed w p cur Hg) as (_ & _ & _ & _ & Hn & _).
    split; intros H; [| destruct H; discriminate].
    rewrite H in Hn. discriminate.
Qed.

(** When the authentication call itself fails, the submission is reported
    like a failed save: the generic failure toast, no query, no refresh, and
    the state untouched. *)
Theorem auth_failure_is_reported (w : World) (p : Props) (cur : State)
    (err : string) :
  gate_open w cur = true ->
  getUser w = Rejected err ->
  notifications (trace (submit w p cur)) = [NError "Failed to save version"]
  /\ db_calls (trace (submit w p cur)) = []
  /\ refresh_calls (trace (submit w p cur)) = O
  /\ final_state (submit w p cur) = cur.
Proof.
  intros Hg Hu. apply gate_open_true in Hg. destruct Hg as [Hp Hf].
  rewrite (gate_passed_notifications w p cur Hp Hf),
    (gate_passed_db_calls w p cur Hp Hf),
    (gate_passed_refresh_calls w p cur Hp Hf),
    (gate_passed_final_state w p cur Hp Hf).
  unfold after_gate. rewrite Hu. repeat split; reflexivity.
Qed.

Lemma auth_failure_is_reported_witness :
  notifications (trace (submit Scenario.auth_down Sample.props
     (Sample.draft "https://example.com/a" "" None)))
  = [NError "Failed to save version"]
  /\ db_calls (trace (submit Scenario.auth_down Sample.props
       (Sample.draft "https://example.com/a" "" None))) = []
  /\ final_state (submit Scenario.auth_down Sample.props
       (Sample.draft "https://example.com/a" "" None))
     = Sample.draft "https://example.com/a" "" None.
Proof.
  destruct (auth_failure_is_reported Scenario.auth_down Sample.props
              (Sample.draft "https://example.com/a" "" None)
              "AuthRetryableFetchError" eq_refl eq_refl)
    as (Hn & Hdb & _ & Hs).
  split; [exact Hn |]. split; [exact Hdb | exact Hs].
Defined.

Lemma or_null_cases (w : World) (s : string) :
  field_ok w s = true ->
  or_null s = JNull
  \/ (or_null s = JString s /\ s <> "" /\ url_parses w s = true).
Proof.
  unfold field_ok, or_null. destruct (truthy s) eqn:Ht; simpl; intros H.
  - right. split; [reflexivity |]. split; [apply truthy_true_iff, Ht | exact H].
  - left. reflexivity.
Qed.

(** No malformed URL and no empty string reaches the store through
    [handleSubmit]: under either URL key, every query it sends writes [null]
    or a non-empty string that the URL parser accepted. *)
Theorem stored_urls_parse_or_null
    (w : World) (p : Props) (cur : State) (fld : Field) :
  Forall (fun q =>
            written q (field_key fld) = Some JNull
            \/ exists s, written q (field_key fld) = Some (JString s)
                         /\ s <> "" /\ url_parses w s = true)
         (db_calls (trace (submit w p cur))).
Proof.
  destruct (gate_open w cur) eqn:Hg.
  - destruct (proj1 (gate_open_true w cur) Hg) as [Hp Hf].
    rewrite (gate_passed_db_calls w p cur Hp Hf), db_calls_after_gate.
    destruct (getUser w) as [[u |] | e];
      [constructor; [| constructor] | constructor | constructor].
    rewrite submit_query_writes_or_null.
    assert (Hok : field_ok w (field_value fld (formData cur)) = true)
      by (destruct fld; assumption).
    destruct (or_null_cases w _ Hok) as [-> | (-> & Hne & Hpar)];
      [left; reflexivity | right; eauto].
  - destruct (submit_gate_closed w p cur Hg) as (_ & _ & -> & _). constructor.
Qed.

(** ** [handleDelete] and [handleApprove] *)

Lemma mutation_run (w : World) (cur : State) (q : Query)
    (done logged failed : string) :
  run (try_catch
         (do _ <- db_query_call w q;
          do _ <- toast_success done;
          call_onVersionsUpdate w)
         (fun error => do _ <- console_error logged; toast_error failed)) cur
  = (Ok tt, cur,
     EvDbQuery q
     :: match db_query w q with
        | Resolved _ =>
            [EvToastSuccess done; EvOnVersionsUpdate]
            ++ match onVersionsUpdate w with
               | Resolved _ => []
               | Rejected _ => [EvConsoleError logged; EvToastError failed]
               end
        | Rejected _ => [EvConsoleError logged; EvToastError failed]
        end).
Proof.
  unfold run, db_query_call, call_onVersionsUpdate, toast_success,
    toast_error, console_error, try_catch, bind, emit, await.
  destruct (db_query w q); simpl;
    [destruct (onVersionsUpdate w) as [[] |] |]; reflexivity.
Qed.

(** A confirmed delete sends one query, the delete of that id without data,
    and never asks who the user is or touches the dialog state.  The refresh
    callback runs exactly when the store accepted the delete; the toasts are
    the success message then, the failure message otherwise, and also the
    failure message after the success message when the callback throws. *)
Theorem delete_outcome (w : World) (cur : State) (versionId : string) :
  db_calls (trace (run (handleDelete w versionId) cur))
  = [ {| collection := "video_versions"; operation := Delete;
         where_id := Some versionId; data := None |} ]
  /\ ~ In EvGetUser (trace (run (handleDelete w versionId) cur))
  /\ final_state (run (handleDelete w versionId) cur) = cur
  /\ refresh_calls (trace (run (handleDelete w versionId) cur))
     = match db_query w (delete_query versionId) with
       | Resolved _ => 1%nat
       | Rejected _ => O
       end
  /\ notifications (trace (run (handleDelete w versionId) cur))
     = mutation_toasts w (delete_query versionId)
         "Version deleted successfully" "Failed to delete version".
Proof.
  unfold handleDelete, mutation_toasts. rewrite mutation_run.
  unfold trace, final_state; simpl.
  destruct (db_query w (delete_query versionId)); simpl;
    [destruct (onVersionsUpdate w) |]; simpl;
    repeat split; try reflexivity; intuition discriminate.
Qed.

(** An approval never asks who the user is or touches the dialog state.
    The refresh callback runs exactly when the store accepted the update;
    the toasts are the success message then, the failure message otherwise,
    and also the failure message after the success message when the callback
    throws. *)
Theorem approve_outcome (w : World) (cur : State) (versionId : string) :
  ~ In EvGetUser (trace (run (handleApprove w versionId) cur))
  /\ final_state (run (handleApprove w versionId) cur) = cur
  /\ refresh_calls (trace (run (handleApprove w versionId) cur))
     = match db_query w (approve_query versionId) with
       | Resolved _ => 1%nat
       | Rejected _ => O
       end
  /\ notifications (trace (run (handleApprove w versionId) cur))
     = mutation_toasts w (approve_query versionId)
         "Version approved successfully" "Failed to approve version".
Proof.
  unfold handleApprove, mutation_toasts. rewrite mutation_run.
  unfold trace, final_state; simpl.
  destruct (db_query w (approve_query versionId)); simpl;
    [destruct (onVersionsUpdate w) |]; simpl;
    repeat split; try reflexivity; intuition discriminate.
Qed.

(** ** The dialog *)

(** Dismissing the dialog restores the initial state from any state;
    opening it only sets [dialogOpen] and keeps the draft and the edit
    target.  Neither calls a collaborator. *)
Theorem dialog_close_resets_open_keeps (cur : State) :
  run (handleDialogClose false) cur = (Ok tt, initialState, [])
  /\ run (handleDialogClose true) cur
     = (Ok tt, {| dialogOpen := true;
                  editingVersion := editingVersion cur;
                  formData := formData cur |}, []).
Proof. split; reflexivity. Qed.

Lemma handleEdit_run (version : Version.t) (cur : State) :
  run (handleEdit version) cur
  = (Ok tt,
     {| dialogOpen := true;
        editingVersion := Some version;
        formData := FormData.mk (or_empty (Version.preview_url version))
                                (or_empty (Version.final_url version)) |},
     []).
Proof. reflexivity. Qed.

Lemma or_null_or_empty (o : option string) :
  or_null (or_empty o)
  = match o with
    | Some s => or_null s
    | None => JNull
    end.
Proof.
  destruct o as [s |]; [| reflexivity].
  unfold or_empty, or_null. destruct (truthy s) eqn:Ht; [rewrite Ht |]; reflexivity.
Qed.

(** Opening a row for editing and submitting the form untouched sends one
    update of that very row which writes the row's own URLs back: a stored
    URL as it is, a missing or empty one as [null].  It needs the stored
    URLs to pass the gate and a signed-in user. *)
Theorem edit_then_submit_round_trip
    (w : World) (p : Props) (cur : State) (version : Version.t) (u : User) :
  field_ok w (or_empty (Version.preview_url version)) = true ->
  field_ok w (or_empty (Version.final_url version)) = true ->
  getUser w = Resolved (Some u) ->
  trace (run (handleEdit version) cur) = []
  /\ exists q,
       db_calls (trace (submit w p (final_state (run (handleEdit version) cur))))
       = [q]
       /\ operation q = Update
       /\ where_id q = Some (Version.id version)
       /\ written q "preview_url"
          = Some (match Version.preview_url version with
                  | Some s => or_null s
                  | None => JNull
                  end)
       /\ written q "final_url"
          = Some (match Version.final_url version with
                  | Some s => or_null s
                  | None => JNull
                  end).
Proof.
  intros Hp Hf Hu. rewrite handleEdit_run. split; [reflexivity |].
  unfold final_state; simpl.
  set (st := {| dialogOpen := true; editingVersion := Some version;
                formData := FormData.mk (or_empty (Version.preview_url version))
                              (or_empty (Version.final_url version)) |}).
  exists (submit_query w p st u).
  rewrite (gate_passed_db_calls w p st Hp Hf), db_calls_after_gate, Hu.
  split; [reflexivity |]. split; [reflexivity |]. split; [reflexivity |].
  rewrite <- !or_null_or_empty.
  split; [apply (submit_query_writes_or_null w p st u PreviewField)
         | apply (submit_query_writes_or_null w p st u FinalField)].
Qed.

Lemma edit_then_submit_round_trip_witness :
  exists q,
    db_calls (trace (submit Sample.world Sample.props
       (final_state (run (handleEdit Scenario.stored) initialState)))) = [q]
    /\ where_id q = Some "c"
    /\ written q "preview_url" = Some (JString "https://example.com/preview")
    /\ written q "final_url" = Some JNull.
Proof.
  destruct (edit_then_submit_round_trip Sample.world Sample.props initialState
              Scenario.stored {| user_id := "user-1" |}
              eq_refl eq_refl eq_refl)
    as (_ & q & Hq & _ & Hid & Hpre & Hfin).
  exists q. repeat split; assumption.
Defined.

(** ** Sessions *)

Lemma submit_final_state_either (w : World) (p : Props) (cur : State) :
  final_state (submit w p cur) = cur
  \/ final_state (submit w p cur) = initialState.
Proof.
  destruct (gate_open w cur) eqn:Hg.
  - destruct (proj1 (gate_open_true w cur) Hg) as [Hp Hf].
    rewrite (gate_passed_final_state w p cur Hp Hf). unfold after_gate.
    destruct (getUser w) as [[u |] | e]; simpl; try (left; reflexivity).
    destruct (db_query w (submit_query w p cur u)); simpl;
      [right | left]; reflexivity.
  - left. apply (submit_gate_closed w p cur Hg).
Qed.

Lemma perform_mutation (cur : State) (p : Props) (w : World) (versionId : string) :
  perform cur (p, ClickApprove w versionId) = cur
  /\ perform cur (p, ConfirmDelete w versionId) = cur.
Proof.
  unfold perform; simpl. unfold handleApprove, handleDelete.
  rewrite !mutation_run. split; reflexivity.
Qed.

Lemma perform_keeps_edit_implies_open (cur : State) (step : Props * Action) :
  editingVersion cur = None \/ dialogOpen cur = true ->
  editingVersion (perform cur step) = None
  \/ dialogOpen (perform cur step) = true.
Proof.
  intros Hinv. destruct step as [p a]. destruct a as [[|] | v | s | s | w | w i | w i].
  - right. reflexivity.
  - left. reflexivity.
  - right. reflexivity.
  - exact Hinv.
  - exact Hinv.
  - unfold perform; simpl. fold (submit w p cur).
    destruct (submit_final_state_either w p cur) as [-> | ->];
      [exact Hinv | left; reflexivity].
  - rewrite (proj1 (perform_mutation cur p w i)). exact Hinv.
  - rewrite (proj2 (perform_mutation cur p w i)). exact Hinv.
Qed.

(** Whatever the user does, in whatever order and whatever the
    collaborators answer, a version is being edited only while the dialog is
    open. *)
Theorem editing_only_while_open (steps : list (Props * Action)) :
  editingVersion (session steps) = None
  \/ dialogOpen (session steps) = true.
Proof.
  unfold session.
  assert (H : editingVersion initialState = None
              \/ dialogOpen initialState = true) by (left; reflexivity).
  revert H. generalize initialState.
  induction steps as [| step steps IH]; intros st Hst; simpl; [exact Hst |].
  apply IH. apply perform_keeps_edit_implies_open. exact Hst.
Qed.

Lemma perform_keeps_closed_is_pristine (cur : State) (step : Props * Action) :
  match snd step with
  | ChangePreview _ | ChangeFinal _ => dialogOpen cur
  | _ => true
  end = true ->
  dialogOpen cur = true \/ cur = initialState ->
  dialogOpen (perform cur step) = true \/ perform cur step = initialState.
Proof.
  intros Hguard Hinv. destruct step as [p a].
  destruct a as [[|] | v | s | s | w | w i | w i]; simpl in Hguard.
  - left. reflexivity.
  - right. reflexivity.
  - left. reflexivity.
  - left. exact Hguard.
  - left. exact Hguard.
  - unfold perform; simpl. fold (submit w p cur).
    destruct (submit_final_state_either w p cur) as [-> | ->];
      [exact Hinv | right; reflexivity].
  - rewrite (proj1 (perform_mutation cur p w i)). exact Hinv.
  - rewrite (proj2 (perform_mutation cur p w i)). exact Hinv.
Qed.

Lemma closed_is_pristine_from (steps : list (Props * Action)) (st : State) :
  dialogOpen st = true \/ st = initialState ->
  typing_only_while_open st steps = true ->
  dialogOpen (fold_left perform steps st) = true
  \/ fold_left perform steps st = initialState.
Proof.
  revert st. induction steps as [| step steps IH]; intros st Hst Hg; simpl in *;
    [exact Hst |].
  apply andb_true_iff in Hg. destruct Hg as [Hg1 Hg2].
  apply IH; [| exact Hg2].
  apply perform_keeps_closed_is_pristine; assumption.
Qed.

(** When the two inputs are changed only while the dialog is open, a closed
    dialog always has an empty draft and no edit target, so the next opening
    through [onOpenChange(true)] (which resets nothing itself) shows an
    empty form in create mode. *)
Theorem closed_dialog_is_pristine (steps : list (Props * Action)) :
  typing_only_while_open initialState steps = true ->
  (dialogOpen (session steps) = true \/ session steps = initialState)
  /\ (dialogOpen (session steps) = false ->
      forall p, perform (session steps) (p, OpenChange true)
                = {| dialogOpen := true;
                     editingVersion := None;
                     formData := FormData.mk "" "" |}).
Proof.
  intros Hguard.
  assert (Hinv : dialogOpen (session steps) = true \/ session steps = initialState)
    by (apply closed_is_pristine_from; [right; reflexivity | exact Hguard]).
  split; [exact Hinv |].
  intros Hclosed p. destruct Hinv as [Hopen | ->]; [congruence | reflexivity].
Qed.

Lemma closed_dialog_is_pristine_witness :
  typing_only_while_open initialState Scenario.steps = true
  /\ session Scenario.steps = initialState.
Proof.
  split; [reflexivity |].
  destruct (closed_dialog_is_pristine Scenario.steps eq_refl) as [[H | H] _];
    [discriminate H | exact H].
Defined.

(** Without that condition the conclusion fails: a change of an input in
    the closed state leaves a closed dialog with a draft. *)
Example typing_while_closed_leaves_a_draft :
  session [(Sample.props, ChangePreview "x")]
  = {| dialogOpen := false;
       editingVersion := None;
       formData := FormData.mk "x" "" |}.
Proof. reflexivity. Qed.

(** ** The view *)

(** The card shows the empty state exactly for an empty list; otherwise it
    shows one row per version, keyed by the version's id, in the order of
    the list. *)
Theorem body_has_a_row_per_version (p : Props) :
  match renderBody p with
  | NoVersionsYet => versions p = []
  | VersionsTable rows =>
      versions p <> []
      /\ map row_key rows = map Version.id (versions p)
      /\ map row_version_number rows = version_numbers (versions p)
  end.
Proof.
  unfold renderBody, version_numbers.
  destruct (versions p) as [| v vs]; simpl; [reflexivity |].
  split; [discriminate |]. rewrite !map_map. split; reflexivity.
Qed.

(** Every row offers exactly one edit control and one delete control, for
    its own version, whatever the role and the approval state; they are
    preceded by at most one approve control, and only in a row whose badge
    says pending. *)
Theorem row_controls (role : option string) (version : Version.t) :
  exists approve_part,
    actions_cell (renderRow role version)
    = approve_part
      ++ [EditButton version; DeleteButton (Version.id version)]
    /\ (approve_part = []
        \/ (approve_part = [ApproveButton (Version.id version)]
            /\ status_cell (renderRow role version) = BadgePending
            /\ role = Some "client")).
Proof.
  unfold renderRow, rowActions, statusBadge; simpl.
  destruct (Version.is_approved version); simpl.
  - exists []. split; [reflexivity | left; reflexivity].
  - destruct (role_is_client role) eqn:Hr.
    + exists [ApproveButton (Version.id version)].
      split; [reflexivity | right].
      split; [reflexivity |]. split; [reflexivity |].
      apply role_is_client_iff. exact Hr.
    + exists []. split; [reflexivity | left; reflexivity].
Qed.

(** A link cell and the edit form agree: the cell is a link exactly when
    [handleEdit] seeds the matching field with a non-empty string, and the
    link then points to that string; a missing or empty URL shows as not
    uploaded and is seeded as the empty string. *)
Theorem link_cells_agree_with_edit_form
    (role : option string) (version : Version.t) (cur : State) :
  preview_cell (renderRow role version)
  = (if truthy (FormData.preview_url
                  (formData (final_state (run (handleEdit version) cur))))
     then LinkTo (FormData.preview_url
                    (formData (final_state (run (handleEdit version) cur))))
                 "View"
     else NotUploaded)
  /\ final_cell (renderRow role version)
     = (if truthy (FormData.final_url
                     (formData (final_state (run (handleEdit version) cur))))
        then LinkTo (FormData.final_url
                       (formData (final_state (run (handleEdit version) cur))))
                    "Download"
        else NotUploaded).
Proof.
  rewrite handleEdit_run. unfold final_state, renderRow, linkCell, or_empty; simpl.
  destruct (Version.preview_url version) as [s |],
           (Version.final_url version) as [s' |]; simpl;
    try destruct (truthy s) eqn:Hs; try destruct (truthy s') eqn:Hs';
    simpl; rewrite ?Hs, ?Hs'; split; reflexivity.
Qed.

(** The heading and the submit label of the dialog name the operation a
    submission performs: "Edit Version" / "Update Version" go with an
    update, "Add New Version" / "Add Version" with an insert. *)
Theorem dialog_texts_name_the_operation
    (w : World) (p : Props) (cur : State) (u : User) :
  gate_open w cur = true ->
  getUser w = Resolved (Some u) ->
  exists q,
    db_calls (trace (submit w p cur)) = [q]
    /\ ((dialogTitle cur = "Edit Version"
         /\ submitLabel cur = "Update Version"
         /\ operation q = Update)
        \/ (dialogTitle cur = "Add New Version"
            /\ submitLabel cur = "Add Version"
            /\ operation q = Insert)).
Proof.
  intros Hg Hu. destruct (proj1 (gate_open_true w cur) Hg) as [Hp Hf].
  exists (submit_query w p cur u).
  rewrite (gate_passed_db_calls w p cur Hp Hf), db_calls_after_gate, Hu.
  split; [reflexivity |].
  unfold dialogTitle, submitLabel, submit_query.
  destruct (editingVersion cur); [left | right]; repeat split; reflexivity.
Qed.

Lemma dialog_texts_name_the_operation_witness :
  dialogTitle (Sample.draft "https://example.com/a" "" None) = "Add New Version"
  /\ exists q,
       db_calls (trace (submit Sample.world Sample.props
          (Sample.draft "https://example.com/a" "" None))) = [q]
       /\ operation q = Insert.
Proof.
  split; [reflexivity |].
  destruct (dialog_texts_name_the_operation Sample.world Sample.props
              (Sample.draft "https://example.com/a" "" None)
              {| user_id := "user-1" |} eq_refl eq_refl)
    as (q & Hq & [(Ht & _) | (_ & _ & Hop)]).
  - discriminate Ht.
  - exists q. split; assumption.
Defined.

(** ** Numbering *)

Lemma is_max_of_unique (m m' : Z) (l : list Z) :
  is_max_of m l -> is_max_of m' l -> m = m'.
Proof.
  intros [Hin Hall] [Hin' Hall'].
  rewrite List.Forall_forall in Hall, Hall'.
  specialize (Hall m' Hin'). specialize (Hall' m Hin). lia.
Qed.

Lemma is_max_of_Permutation (m : Z) (l l' : list Z) :
  Permutation l l' -> is_max_of m l -> is_max_of m l'.
Proof.
  intros Hperm [Hin Hall]. split.
  - apply (Permutation_in _ Hperm). exact Hin.
  - apply (Permutation_Forall Hperm). exact Hall.
Qed.

Lemma nextVersionNumber_above (vs : list Version.t) :
  List.Forall safe_integer (version_numbers vs) ->
  exists n, nextVersionNumber vs = Num n
            /\ List.Forall (fun v => Version.version_number v < n) vs.
Proof.
  intros Hsafe.
  destruct vs as [| v vs]; [exists 1; split; [reflexivity | constructor] |].
  destruct (nextVersionNumber_cons v vs) as (m & [Hin Hall] & Hnext).
  exists (m + 1). split.
  - rewrite Hnext. f_equal. apply round_to_double_succ_safe.
    rewrite List.Forall_forall in Hsafe. apply Hsafe. exact Hin.
  - unfold version_numbers in Hall. rewrite List.Forall_map in Hall.
    eapply List.Forall_impl; [| exact Hall]. simpl. intros; lia.
Qed.

(** For a list whose version numbers are safe integers, the number given
    to a new version is greater than the number of every version in the
    list, so it is not the number of any of them. *)
Theorem next_version_number_is_fresh (vs : list Version.t) :
  List.Forall safe_integer (version_numbers vs) ->
  exists n, nextVersionNumber vs = Num n
            /\ List.Forall (fun v => Version.version_number v < n) vs
            /\ ~ In n (version_numbers vs).
Proof.
  intros Hsafe.
  destruct (nextVersionNumber_above vs Hsafe) as (n & Hn & Hall).
  exists n. split; [exact Hn |]. split; [exact Hall |].
  unfold version_numbers. intros Hin. apply List.in_map_iff in Hin.
  destruct Hin as (v & Hv & Hin).
  rewrite List.Forall_forall in Hall. specialize (Hall v Hin). lia.
Qed.

Lemma next_version_number_is_fresh_witness :
  List.Forall safe_integer (version_numbers (versions Sample.props))
  /\ ~ In 5 (version_numbers (versions Sample.props)).
Proof.
  assert (Hsafe : List.Forall safe_integer
                    (version_numbers (versions Sample.props)))
    by (repeat constructor).
  split; [exact Hsafe |].
  destruct (next_version_number_is_fresh (versions Sample.props) Hsafe)
    as (n & Hn & _ & Hfresh).
  injection Hn as <-. exact Hfresh.
Defined.

(** Without the bound the number can repeat: a list whose only version is
    numbered 2^53 gets 2^53 again. *)
Example next_version_number_repeats_at_two53 :
  nextVersionNumber [Sample.version "a" two53 false] = Num two53.
Proof. reflexivity. Qed.

Lemma nextVersionNumber_Permutation (vs vs' : list Version.t) :
  Permutation vs vs' -> nextVersionNumber vs = nextVersionNumber vs'.
Proof.
  intros Hperm. destruct vs as [| v vs].
  - apply Permutation_nil in Hperm. subst vs'. reflexivity.
  - destruct vs' as [| v' vs'];
      [apply Permutation_sym, Permutation_nil in Hperm; discriminate |].
    destruct (nextVersionNumber_cons v vs) as (m & Hmax & ->).
    destruct (nextVersionNumber_cons v' vs') as (m' & Hmax' & ->).
    assert (Hnums : Permutation (version_numbers (v :: vs))
                                (version_numbers (v' :: vs')))
      by (apply Permutation_map; exact Hperm).
    rewrite (is_max_of_unique m m' _
               (is_max_of_Permutation m _ _ Hnums Hmax) Hmax').
    reflexivity.
Qed.

(** The next version number does not depend on the order in which the
    caller supplies the versions. *)
Theorem next_version_number_ignores_order (vs vs' : list Version.t) :
  Permutation vs vs' -> nextVersionNumber vs = nextVersionNumber vs'.
Proof. apply nextVersionNumber_Permutation. Qed.

Lemma next_version_number_ignores_order_witness :
  nextVersionNumber
    [Sample.version "c" 4 false; Sample.version "a" 1 true;
     Sample.version "b" 2 false]
  = nextVersionNumber (versions Sample.props).
Proof.
  apply (next_version_number_ignores_order
           [Sample.version "c" 4 false; Sample.version "a" 1 true;
            Sample.version "b" 2 false]
           (versions Sample.props)).
  simpl. apply Permutation_sym.
  eapply Permutation_trans; [| apply Permutation_swap].
  apply Permutation_skip. apply Permutation_swap.
Defined.

(** Successive creations are numbered successively, within the safe
    integers: once the caller's list contains, at any position, the version
    created with the number computed from the previous list, the next number
    is one more. *)
Theorem consecutive_creates_count_up
    (vs vs' : list Version.t) (v : Version.t) :
  List.Forall safe_integer (version_numbers (v :: vs)) ->
  Permutation vs' (v :: vs) ->
  nextVersionNumber vs = Num (Version.version_number v) ->
  nextVersionNumber vs' = Num (Version.version_number v + 1).
Proof.
  intros Hsafe Hperm Hnext.
  rewrite (nextVersionNumber_Permutation _ _ Hperm).
  destruct (nextVersionNumber_cons v vs) as (m & Hmax & ->).
  destruct (nextVersionNumber_above vs (List.Forall_inv_tail Hsafe))
    as (n & Hn & Hall).
  rewrite Hnext in Hn. injection Hn as <-.
  assert (Hv : is_max_of (Version.version_number v) (version_numbers (v :: vs))).
  { split; [left; reflexivity |].
    unfold version_numbers. rewrite List.Forall_map.
    constructor; [lia |].
    eapply List.Forall_impl; [| exact Hall]. simpl. intros; lia. }
  rewrite (is_max_of_unique _ _ _ Hmax Hv). f_equal.
  apply round_to_double_succ_safe. exact (List.Forall_inv Hsafe).
Qed.

Lemma consecutive_creates_count_up_witness :
  nextVersionNumber (versions Sample.props ++ [Sample.version "d" 5 false])
  = Num 6.
Proof.
  apply (consecutive_creates_count_up (versions Sample.props)
           (versions Sample.props ++ [Sample.version "d" 5 false])
           (Sample.version "d" 5 false)).
  - repeat constructor.
  - apply Permutation_sym, Permutation_cons_append.
  - reflexivity.
Defined.

(** At the bound the count stops: after the version numbered 2^53 joins
    the list [2^53 - 1], the next number is 2^53 again. *)
Example consecutive_creates_stall_at_two53 :
  nextVersionNumber [Sample.version "a" (two53 - 1) false] = Num two53
  /\ nextVersionNumber [Sample.version "b" two53 false;
                        Sample.version "a" (two53 - 1) false] = Num two53.
Proof. split; reflexivity. Qed.

(** ** Every query of a session *)

Lemma db_calls_submit_cases (w : World) (p : Props) (cur : State) :
  db_calls (trace (submit w p cur)) = []
  \/ exists u, db_calls (trace (submit w p cur)) = [submit_query w p cur u].
Proof.
  destruct (gate_open w cur) eqn:Hg.
  - destruct (proj1 (gate_open_true w cur) Hg) as [Hp Hf].
    rewrite (gate_passed_db_calls w p cur Hp Hf), db_calls_after_gate.
    destruct (getUser w) as [[u |] | e]; [right; exists u |left | left];
      reflexivity.
  - left. apply (submit_gate_closed w p cur Hg).
Qed.

(** Whatever the user does, every query the panel sends goes to
    [video_versions]; every update and every delete names the id of one row
    (there is no query over all rows); and no update writes
    [is_approved = false], so the panel cannot withdraw an approval. *)
Theorem queries_are_scoped_and_never_unapprove
    (p : Props) (cur : State) (a : Action) :
  Forall (fun q =>
            collection q = "video_versions"
            /\ (operation q = Insert \/ exists i, where_id q = Some i)
            /\ (operation q = Insert
                \/ written q "is_approved" <> Some (JBool false)))
         (db_calls (trace (run (handler p cur a) cur))).
Proof.
  destruct a as [open | v | s | s | w | w i | w i]; simpl handler.
  - destruct open; constructor.
  - constructor.
  - constructor.
  - constructor.
  - fold (submit w p cur).
    destruct (db_calls_submit_cases w p cur) as [-> | (u & ->)];
      constructor; [| constructor].
    unfold submit_query. destruct (editingVersion cur) as [v |].
    + split; [reflexivity |].
      split; right; [exists (Version.id v); reflexivity | discriminate].
    + split; [reflexivity |]. split; left; reflexivity.
  - rewrite approve_trace. constructor; [| constructor].
    split; [reflexivity |].
    split; right; [exists i; reflexivity | discriminate].
  - unfold handleDelete. rewrite mutation_run. unfold trace; simpl.
    replace (db_calls _) with (@nil Query)
      by (destruct (db_query w (delete_query i)); simpl;
          [destruct (onVersionsUpdate w) |]; reflexivity).
    constructor; [| constructor].
    split; [reflexivity |].
    split; right; [exists i; reflexivity | discriminate].
Qed.
